(** * quantumcat: the circuit facade [QCircuit] and the Cirq RCCX gate

  A shallow embedding of [quantumcat/circuit/circuit.py] and of
  [quantumcat/gates/custom_gates/cirq/rccx_gate.py].

  A [QCircuit] is a mutable Python object; its methods are embedded as
  state transformers over a record of its four attributes.  A method
  either returns a value or raises, and in both cases leaves a new
  state behind (an exception does not roll back earlier assignments).
  Calls that leave the class (translators of [quantumcat.circuit.convert],
  executors of [quantumcat.circuit.execute_circuit], [print]) are
  recorded in a log, so that "was it translated", "was anything
  executed" are statements about that log. *)

From Stdlib Require Import ZArith.
From stdpp Require Import gmap strings list fin_maps.

Local Open Scope Z_scope.

(** ** Python values *)

(** The scalar values that travel through the facade untouched: [None],
  integers ([True] and [False] are the integers 1 and 0), strings, and
  any other object, known by its identity. *)
Inductive pyval : Type :=
| PyNone
| PyInt (z : Z)
| PyStr (s : string)
| PyObj (id : N).

#[global] Instance pyval_eq_dec : EqDecision pyval.
Proof. solve_decision. Defined.

Definition pyval_code (v : pyval) : (unit + Z) + (string + N) :=
match v with
| PyNone => inl (inl tt)
| PyInt z => inl (inr z)
| PyStr s => inr (inl s)
| PyObj n => inr (inr n)
end.

Definition pyval_decode (c : (unit + Z) + (string + N)) : pyval :=
match c with
| inl (inl _) => PyNone
| inl (inr z) => PyInt z
| inr (inl s) => PyStr s
| inr (inr n) => PyObj n
end.

#[global] Instance pyval_countable : Countable pyval.
Proof.
apply (inj_countable' pyval_code pyval_decode).
by intros [].
Defined.

(** ** [OpType]: the operation kinds used as dictionary keys *)

Module OpType.
Inductive t : Type :=
  | x_gate | y_gate | z_gate | h_gate | cx_gate | cz_gate | ccx_gate
  | ry_gate | ryy_gate | rzz_gate | rzx_gate | rz_gate
  | s_gate | sdg_gate | swap_gate | iswap_gate | sx_gate | sxd_gate
  | t_gate | td_gate | u_gate | u1_gate | u2_gate | u3_gate
  | cy_gate | i_gate | rccx_gate | rc3x_gate | rxx_gate | rx_gate
  | r_gate | p_gate | c3x_gate | c3sx_gate | c4x_gate | dcx_gate
  | ch_gate | csx_gate | cswap_gate | cphase_gate | crx_gate | cry_gate
  | crz_gate | cu_gate | cu1_gate | cu3_gate
  | mcx_gate | mcxgc_gate | mcxvchain_gate | mcxrec_gate | mcp_gate
  | mct_gate | measure | measure_all.
End OpType.

(** ** Operations *)

(** What an operation dictionary stores under a key: nested lists of
  scalars, and for [measure_all] the kind itself. *)
#[warnings="-register-all"]
Inductive pydata : Type :=
| Val (v : pyval)
| Kind (k : OpType.t)
| Seq (items : list pydata).

Definition Int (z : Z) : pydata := Val (PyInt z).

(** The keys of an operation dictionary: an [OpType] member, or
  [constants.PARAMS]. *)
Inductive opkey : Type :=
| Op (k : OpType.t)
| PARAMS.

(** An operation is the dictionary literal the method builds, as the list
  of its key/value pairs in the order they are written. *)
Definition operation : Type := list (opkey * pydata).

(** ** Exceptions and outcomes *)

Inductive exn : Type :=
| CircuitError (msg : string)
| APIDetailsNotFoundError (msg : string)
| KeyError (key : string)
| AttributeError
| BackendError (what : pyval).

Inductive outcome (A : Type) : Type :=
| Return (a : A)
| Raise (e : exn).
Arguments Return {A} a.
Arguments Raise {A} e.

(** What a builder method hands back: the circuit object itself
  ([return self]), or [None] when the body ends without a [return]. *)
Inductive reference : Type :=
| Self
| NoReturn.

(** ** The object *)

(** The attributes of a [QCircuit] object, over the type of the native
  circuits it caches. *)
Record attributes (native : Type) : Type := mkQCircuit {
  qubits : Z;
  operations : list operation;
  converted_q_circuit : option native;
  provider : pyval
}.
Arguments mkQCircuit {native} _ _ _ _.
Arguments qubits {native} _.
Arguments operations {native} _.
Arguments converted_q_circuit {native} _.
Arguments provider {native} _.

(** ** Collaborators outside the class *)

(** The modules [providers], [constants], [ErrorMessages], [convert] and
  [execute_circuit] are used by [circuit.py] but defined elsewhere; the
  facade is embedded over any choice of them.  A translator is called as
  [convert.to_qiskit(self, self.qubits)]: it is handed the object and
  the qubit count, and it returns a native circuit object ([None]
  included) or raises; it reads the object and does not assign to it.
  An executor returns a result or raises. *)
Class Collaborators : Type := {
native : Type;
counts : Type;
IBM_PROVIDER : pyval;
GOOGLE_PROVIDER : pyval;
IONQ_PROVIDER : pyval;
MICROSOFT_PROVIDER : pyval;
AMAZON_PROVIDER : pyval;
DEFAULT_PROVIDER : pyval;
DEFAULT_SIMULATOR : pyval;
DEFAULT_REPETITIONS : pyval;
QUBIT_OUT_OF_BOUND : string;
IONQ_API_DETAILS_NOT_PROVIDED : string;
to_qiskit : attributes native -> Z -> outcome (option native);
to_cirq : attributes native -> Z -> outcome (option native);
to_q_sharp : attributes native -> Z -> outcome (option native);
to_braket : attributes native -> Z -> outcome (option native);
on_qiskit : option native -> pyval -> pyval -> pyval -> pyval -> outcome counts;
on_cirq : option native -> pyval -> pyval -> pyval -> list operation -> outcome counts;
on_braket : option native -> pyval -> pyval -> pyval -> pyval -> pyval ->
            pyval -> pyval -> outcome counts;
on_ionq : option native -> pyval -> pyval -> pyval -> list operation -> outcome counts
}.

(** The calls that leave the class. *)
Inductive backend : Type := Qiskit | Cirq | Braket | IonQ.

(** [Converted p]: [convert_circuit] was entered while [self.provider]
  was [p].  [Executed b]: the executor of family [b] was called.
  [Printed drawn c]: [print] was called on [c], or on [c.draw()] when
  [drawn] is set. *)
Inductive event `{Collaborators} : Type :=
| Converted (p : pyval)
| Executed (b : backend)
| Printed (drawn : bool) (what : option native).

#[global] Instance pyval_inhabited : Inhabited pyval := populate PyNone.

(** A [QCircuit] object caches native circuits of the collaborators. *)
Definition QCircuit `{Collaborators} : Type := attributes native.

Section Facade.
Context `{E : Collaborators}.

(** ** The methods *)

Definition M (A : Type) : Type := QCircuit -> outcome A * QCircuit * list event.

Definition ret {A} (a : A) : M A := fun self => (Return a, self, []).

Definition raise {A} (e : exn) : M A := fun self => (Raise e, self, []).

Definition bind {A B} (m : M A) (k : A -> M B) : M B :=
  fun self =>
    match m self with
    | (Return a, self1, log1) =>
        let '(r, self2, log2) := k a self1 in (r, self2, log1 ++ log2)
    | (Raise e, self1, log1) => (Raise e, self1, log1)
    end.

Definition emit (ev : event) : M unit := fun self => (Return tt, self, [ev]).

Definition get : M QCircuit := fun self => (Return self, self, []).

Definition put (self' : QCircuit) : M unit := fun _ => (Return tt, self', []).

Notation "x <- m ;; k" := (bind m (fun x => k))
  (at level 100, m at next level, right associativity).
Notation "m ;;; k" := (bind m (fun _ => k))
  (at level 100, right associativity).

(** The outcome of a call that leaves the class. *)
Definition call {A} (o : outcome A) : M A := fun self => (o, self, []).

(** [for x in xs: body] *)
Fixpoint for_each {A} (xs : list A) (body : A -> M unit) : M unit :=
  match xs with
  | [] => ret tt
  | x :: rest => body x ;;; for_each rest body
  end.

(** [for x in xs: body], where the body updates a local variable. *)
Fixpoint for_each_with {A L} (xs : list A) (body : A -> L -> M L) (local : L) : M L :=
  match xs with
  | [] => ret local
  | x :: rest => local' <- body x local ;; for_each_with rest body local'
  end.

(** [QCircuit(qubits, provider)] *)
Definition __init__ (qubits_ : Z) (provider_ : pyval) : QCircuit :=
  {| qubits := qubits_;
     operations := [];
     converted_q_circuit := None;
     provider := provider_ |}.

(** [self.operations.append(op)] *)
Definition append (op : operation) : M unit :=
  fun self =>
    (Return tt,
     {| qubits := qubits self;
        operations := operations self ++ [op];
        converted_q_circuit := converted_q_circuit self;
        provider := provider self |},
     []).

Definition check_qubit_boundary (qubit : Z) : M unit :=
  self <- get ;;
  if qubit >? qubits self - 1
  then raise (CircuitError QUBIT_OUT_OF_BOUND)
  else ret tt.

Definition x_gate (qubit : Z) : M reference :=
  check_qubit_boundary qubit ;;;
  append [(Op OpType.x_gate, Seq [Int qubit])] ;;;
  ret Self.

Definition y_gate (qubit : Z) : M reference :=
  check_qubit_boundary qubit ;;;
  append [(Op OpType.y_gate, Seq [Int qubit])] ;;;
  ret Self.

Definition z_gate (qubit : Z) : M reference :=
  check_qubit_boundary qubit ;;;
  append [(Op OpType.z_gate, Seq [Int qubit])] ;;;
  ret Self.

Definition h_gate (qubit : Z) : M reference :=
  check_qubit_boundary qubit ;;;
  append [(Op OpType.h_gate, Seq [Int qubit])] ;;;
  ret Self.

Definition cx_gate (control_qubit target_qubit : Z) : M reference :=
  check_qubit_boundary control_qubit ;;;
  check_qubit_boundary target_qubit ;;;
  append [(Op OpType.cx_gate,
           Seq [Seq [Int control_qubit]; Seq [Int target_qubit]])] ;;;
  ret Self.

Definition cz_gate (control_qubit target_qubit : Z) : M reference :=
  check_qubit_boundary control_qubit ;;;
  append [(Op OpType.cz_gate,
           Seq [Seq [Int control_qubit]; Seq [Int target_qubit]])] ;;;
  ret Self.

Definition ccx_gate (control_qubit1 control_qubit2 target_qubit : Z) : M reference :=
  check_qubit_boundary control_qubit1 ;;;
  check_qubit_boundary control_qubit2 ;;;
  check_qubit_boundary target_qubit ;;;
  append [(Op OpType.ccx_gate,
           Seq [Seq [Int control_qubit1]; Seq [Int control_qubit2];
                Seq [Int target_qubit]])] ;;;
  ret Self.

Definition ry_gate (theta : pyval) (qubit : Z) : M reference :=
  check_qubit_boundary qubit ;;;
  append [(Op OpType.ry_gate, Seq [Int qubit]);
          (PARAMS, Seq [Val theta])] ;;;
  ret Self.

Definition ryy_gate (theta : pyval) (qubit1 qubit2 : Z) : M reference :=
  check_qubit_boundary qubit1 ;;;
  check_qubit_boundary qubit2 ;;;
  append [(Op OpType.ryy_gate, Seq [Seq [Int qubit1]; Seq [Int qubit2]]);
          (PARAMS, Seq [Val theta])] ;;;
  ret Self.

Definition rzz_gate (theta : pyval) (qubit1 qubit2 : Z) : M reference :=
  check_qubit_boundary qubit1 ;;;
  check_qubit_boundary qubit2 ;;;
  append [(Op OpType.rzz_gate, Seq [Seq [Int qubit1]; Seq [Int qubit2]]);
          (PARAMS, Seq [Val theta])] ;;;
  ret Self.

Definition rzx_gate (theta : pyval) (qubit1 qubit2 : Z) : M reference :=
  check_qubit_boundary qubit1 ;;;
  check_qubit_boundary qubit2 ;;;
  append [(Op OpType.rzx_gate, Seq [Seq [Int qubit1]; Seq [Int qubit2]]);
          (PARAMS, Seq [Val theta])] ;;;
  ret Self.

Definition rz_gate (phi : pyval) (qubit : Z) : M reference :=
  check_qubit_boundary qubit ;;;
  append [(Op OpType.rz_gate, Seq [Int qubit]);
          (PARAMS, Seq [Val phi])] ;;;
  ret Self.

Definition s_gate (qubit : Z) : M reference :=
  check_qubit_boundary qubit ;;;
  append [(Op OpType.s_gate, Seq [Int qubit])] ;;;
  ret Self.

Definition sdg_gate (qubit : Z) : M reference :=
  check_qubit_boundary qubit ;;;
  append [(Op OpType.sdg_gate, Seq [Int qubit])] ;;;
  ret Self.

Definition swap_gate (qubit1 qubit2 : Z) : M reference :=
  check_qubit_boundary qubit1 ;;;
  check_qubit_boundary qubit2 ;;;
  append [(Op OpType.swap_gate, Seq [Seq [Int qubit1]; Seq [Int qubit2]])] ;;;
  ret Self.

Definition iswap_gate (qubit_a qubit_b : Z) : M reference :=
  check_qubit_boundary qubit_a ;;;
  check_qubit_boundary qubit_b ;;;
  append [(Op OpType.iswap_gate, Seq [Seq [Int qubit_a]; Seq [Int qubit_b]])] ;;;
  ret Self.

Definition sx_gate (qubit : Z) : M reference :=
  check_qubit_boundary qubit ;;;
  append [(Op OpType.sx_gate, Seq [Int qubit])] ;;;
  ret Self.

Definition sxd_gate (qubit : Z) : M reference :=
  check_qubit_boundary qubit ;;;
  append [(Op OpType.sxd_gate, Seq [Int qubit])] ;;;
  ret Self.

Definition t_gate (qubit : Z) : M reference :=
  check_qubit_boundary qubit ;;;
  append [(Op OpType.t_gate, Seq [Int qubit])] ;;;
  ret Self.

Definition td_gate (qubit : Z) : M reference :=
  check_qubit_boundary qubit ;;;
  append [(Op OpType.td_gate, Seq [Int qubit])] ;;;
  ret Self.

Definition u_gate (theta phi lam : pyval) (qubit : Z) : M reference :=
  check_qubit_boundary qubit ;;;
  append [(Op OpType.u_gate, Seq [Int qubit]);
          (PARAMS, Seq [Val theta; Val phi; Val lam])] ;;;
  ret Self.

Definition u1_gate (theta : pyval) (qubit : Z) : M reference :=
  check_qubit_boundary qubit ;;;
  append [(Op OpType.u1_gate, Seq [Int qubit]);
          (PARAMS, Seq [Val theta])] ;;;
  ret Self.

Definition u2_gate (phi lam : pyval) (qubit : Z) : M reference :=
  check_qubit_boundary qubit ;;;
  append [(Op OpType.u2_gate, Seq [Int qubit]);
          (PARAMS, Seq [Val phi; Val lam])] ;;;
  ret Self.

Definition u3_gate (theta phi lam : pyval) (qubit : Z) : M reference :=
  check_qubit_boundary qubit ;;;
  append [(Op OpType.u3_gate, Seq [Int qubit]);
          (PARAMS, Seq [Val theta; Val phi; Val lam])] ;;;
  ret Self.

Definition cy_gate (control_qubit target_qubit : Z) : M reference :=
  check_qubit_boundary control_qubit ;;;
  append [(Op OpType.cy_gate,
           Seq [Seq [Int control_qubit]; Seq [Int target_qubit]])] ;;;
  ret Self.

Definition i_gate (qubit : Z) : M reference :=
  check_qubit_boundary qubit ;;;
  append [(Op OpType.i_gate, Seq [Int qubit])] ;;;
  ret Self.

Definition rccx_gate (control_qubit1 control_qubit2 target_qubit : Z) : M reference :=
  check_qubit_boundary control_qubit1 ;;;
  check_qubit_boundary control_qubit2 ;;;
  check_qubit_boundary target_qubit ;;;
  append [(Op OpType.rccx_gate,
           Seq [Seq [Int control_qubit1]; Seq [Int control_qubit2];
                Seq [Int target_qubit]])] ;;;
  ret Self.

Definition rc3x_gate
    (control_qubit1 control_qubit2 control_qubit3 target_qubit : Z) : M reference :=
  check_qubit_boundary control_qubit1 ;;;
  check_qubit_boundary control_qubit2 ;;;
  check_qubit_boundary control_qubit3 ;;;
  check_qubit_boundary target_qubit ;;;
  append [(Op OpType.rc3x_gate,
           Seq [Seq [Int control_qubit1]; Seq [Int control_qubit2];
                Seq [Int control_qubit3]; Seq [Int target_qubit]])] ;;;
  ret Self.

Definition rxx_gate (theta : pyval) (qubit1 qubit2 : Z) : M reference :=
  check_qubit_boundary qubit1 ;;;
  check_qubit_boundary qubit2 ;;;
  append [(Op OpType.rxx_gate, Seq [Seq [Int qubit1]; Seq [Int qubit2]]);
          (PARAMS, Seq [Val theta])] ;;;
  ret Self.

Definition rx_gate (theta : pyval) (qubit : Z) : M reference :=
  check_qubit_boundary qubit ;;;
  append [(Op OpType.rx_gate, Seq [Int qubit]);
          (PARAMS, Seq [Val theta])] ;;;
  ret Self.

Definition r_gate (theta phi : pyval) (qubit : Z) : M reference :=
  check_qubit_boundary qubit ;;;
  append [(Op OpType.r_gate, Seq [Int qubit]);
          (PARAMS, Seq [Val theta; Val phi])] ;;;
  ret Self.

Definition p_gate (theta : pyval) (qubit : Z) : M reference :=
  check_qubit_boundary qubit ;;;
  append [(Op OpType.p_gate, Seq [Int qubit]);
          (PARAMS, Seq [Val theta])] ;;;
  ret Self.

Definition c3x_gate
    (control_qubit1 control_qubit2 control_qubit3 target_qubit : Z) : M reference :=
  check_qubit_boundary control_qubit1 ;;;
  check_qubit_boundary control_qubit2 ;;;
  check_qubit_boundary control_qubit3 ;;;
  check_qubit_boundary target_qubit ;;;
  append [(Op OpType.c3x_gate,
           Seq [Seq [Int control_qubit1]; Seq [Int control_qubit2];
                Seq [Int control_qubit3]; Seq [Int target_qubit]])] ;;;
  ret Self.

Definition c3sx_gate
    (control_qubit1 control_qubit2 control_qubit3 target_qubit : Z) : M reference :=
  check_qubit_boundary control_qubit1 ;;;
  check_qubit_boundary control_qubit2 ;;;
  check_qubit_boundary control_qubit3 ;;;
  check_qubit_boundary target_qubit ;;;
  append [(Op OpType.c3sx_gate,
           Seq [Seq [Int control_qubit1]; Seq [Int control_qubit2];
                Seq [Int control_qubit3]; Seq [Int target_qubit]])] ;;;
  ret Self.

Definition c4x_gate
    (control_qubit1 control_qubit2 control_qubit3 control_qubit4 target_qubit : Z)
    : M reference :=
  check_qubit_boundary control_qubit1 ;;;
  check_qubit_boundary control_qubit2 ;;;
  check_qubit_boundary control_qubit3 ;;;
  check_qubit_boundary control_qubit4 ;;;
  check_qubit_boundary target_qubit ;;;
  append [(Op OpType.c4x_gate,
           Seq [Seq [Int control_qubit1]; Seq [Int control_qubit2];
                Seq [Int control_qubit3]; Seq [Int control_qubit4];
                Seq [Int target_qubit]])] ;;;
  ret Self.

Definition dcx_gate (control_qubit1 control_qubit2 : Z) : M reference :=
  check_qubit_boundary control_qubit1 ;;;
  check_qubit_boundary control_qubit2 ;;;
  append [(Op OpType.dcx_gate,
           Seq [Seq [Int control_qubit1]; Seq [Int control_qubit2]])] ;;;
  ret Self.

Definition ch_gate (control_qubit target_qubit : Z) : M reference :=
  check_qubit_boundary control_qubit ;;;
  check_qubit_boundary target_qubit ;;;
  append [(Op OpType.ch_gate,
           Seq [Seq [Int control_qubit]; Seq [Int target_qubit]])] ;;;
  ret Self.

Definition csx_gate (control_qubit target_qubit : Z) : M reference :=
  check_qubit_boundary control_qubit ;;;
  check_qubit_boundary target_qubit ;;;
  append [(Op OpType.csx_gate,
           Seq [Seq [Int control_qubit]; Seq [Int target_qubit]])] ;;;
  ret Self.

Definition cswap_gate (control_qubit target_qubit1 target_qubit2 : Z) : M reference :=
  check_qubit_boundary control_qubit ;;;
  check_qubit_boundary target_qubit1 ;;;
  check_qubit_boundary target_qubit2 ;;;
  append [(Op OpType.cswap_gate,
           Seq [Seq [Int control_qubit]; Seq [Int target_qubit1];
                Seq [Int target_qubit2]])] ;;;
  ret Self.

Definition cphase_gate (theta : pyval)
    (control_qubit target_qubit : Z) : M reference :=
  check_qubit_boundary control_qubit ;;;
  check_qubit_boundary target_qubit ;;;
  append [(Op OpType.cphase_gate,
           Seq [Seq [Int control_qubit]; Seq [Int target_qubit]]);
          (PARAMS, Seq [Val theta])] ;;;
  ret Self.

Definition crx_gate (theta : pyval) (control_qubit target_qubit : Z) : M reference :=
  check_qubit_boundary control_qubit ;;;
  check_qubit_boundary target_qubit ;;;
  append [(Op OpType.crx_gate, Seq [Seq [Int control_qubit]; Seq [Int target_qubit]]);
          (PARAMS, Seq [Val theta])] ;;;
  ret Self.

Definition cry_gate (theta : pyval) (control_qubit target_qubit : Z) : M reference :=
  check_qubit_boundary control_qubit ;;;
  check_qubit_boundary target_qubit ;;;
  append [(Op OpType.cry_gate, Seq [Seq [Int control_qubit]; Seq [Int target_qubit]]);
          (PARAMS, Seq [Val theta])] ;;;
  ret Self.

Definition crz_gate (theta : pyval) (control_qubit target_qubit : Z) : M reference :=
  check_qubit_boundary control_qubit ;;;
  check_qubit_boundary target_qubit ;;;
  append [(Op OpType.crz_gate, Seq [Seq [Int control_qubit]; Seq [Int target_qubit]]);
          (PARAMS, Seq [Val theta])] ;;;
  ret Self.

Definition cu_gate (theta phi lam gamma : pyval)
    (control_qubit target_qubit : Z) : M reference :=
  check_qubit_boundary control_qubit ;;;
  check_qubit_boundary target_qubit ;;;
  append [(Op OpType.cu_gate, Seq [Seq [Int control_qubit]; Seq [Int target_qubit]]);
          (PARAMS, Seq [Val theta; Val phi; Val lam; Val gamma])] ;;;
  ret Self.

Definition cu1_gate (theta : pyval) (control_qubit target_qubit : Z) : M reference :=
  check_qubit_boundary control_qubit ;;;
  check_qubit_boundary target_qubit ;;;
  append [(Op OpType.cu1_gate, Seq [Seq [Int control_qubit]; Seq [Int target_qubit]]);
          (PARAMS, Seq [Val theta])] ;;;
  ret Self.

Definition cu3_gate (theta phi lam : pyval)
    (control_qubit target_qubit : Z) : M reference :=
  check_qubit_boundary control_qubit ;;;
  check_qubit_boundary target_qubit ;;;
  append [(Op OpType.cu3_gate, Seq [Seq [Int control_qubit]; Seq [Int target_qubit]]);
          (PARAMS, Seq [Val theta; Val phi; Val lam])] ;;;
  ret Self.


Definition mcx_gate (control_qubits : list Z) (target_qubit : Z)
    (ancilla_qubits : list Z) (mode : pyval) : M reference :=
  check_qubit_boundary target_qubit ;;;
  for_each control_qubits (fun qubit => check_qubit_boundary qubit) ;;;
  append [(Op OpType.mcx_gate,
           Seq (map Int control_qubits ++ [Int target_qubit] ++ map Int ancilla_qubits));
          (PARAMS, Seq [Int (Z.of_nat (length control_qubits))])] ;;;
  ret Self.

Definition mcxgc_gate (control_qubits : list Z) (target_qubit : Z) : M reference :=
  check_qubit_boundary target_qubit ;;;
  for_each control_qubits (fun qubit => check_qubit_boundary qubit) ;;;
  append [(Op OpType.mcxgc_gate, Seq (map Int control_qubits ++ [Int target_qubit]));
          (PARAMS, Seq [Int (Z.of_nat (length control_qubits))])] ;;;
  ret Self.

Definition mcxvchain_gate (control_qubits : list Z) (target_qubit : Z)
    (dirty_ancilla : pyval) : M reference :=
  check_qubit_boundary target_qubit ;;;
  for_each control_qubits (fun qubit => check_qubit_boundary qubit) ;;;
  append [(Op OpType.mcxvchain_gate, Seq (map Int control_qubits ++ [Int target_qubit]));
          (PARAMS, Seq [Int (Z.of_nat (length control_qubits)); Val dirty_ancilla])] ;;;
  ret Self.

Definition mcxrec_gate (control_qubits : list Z) (target_qubit : Z) : M reference :=
  check_qubit_boundary target_qubit ;;;
  for_each control_qubits (fun qubit => check_qubit_boundary qubit) ;;;
  append [(Op OpType.mcxrec_gate, Seq (map Int control_qubits ++ [Int target_qubit]));
          (PARAMS, Seq [Int (Z.of_nat (length control_qubits))])] ;;;
  ret Self.

Definition mcp_gate (lam : pyval) (control_qubits : list Z) (target_qubit : Z)
    : M reference :=
  check_qubit_boundary target_qubit ;;;
  for_each control_qubits (fun qubit => check_qubit_boundary qubit) ;;;
  append [(Op OpType.mcp_gate, Seq (map Int control_qubits ++ [Int target_qubit]));
          (PARAMS, Seq [Val lam; Int (Z.of_nat (length control_qubits))])] ;;;
  ret Self.

(** [ancilla_qubits] is [None] or a list. *)
Definition mct_gate (control_qubits : list Z) (target_qubit : Z)
    (ancilla_qubits : option (list Z)) (mode : pyval) : M reference :=
  check_qubit_boundary target_qubit ;;;
  append [(Op OpType.mct_gate,
           Seq [Seq (map Int control_qubits);
                Seq [Int target_qubit];
                match ancilla_qubits with
                | None => Val PyNone
                | Some ancillas => Seq (map Int ancillas)
                end;
                Val mode])] ;;;
  ret Self.

Definition measure (qubit : Z) : M reference :=
  check_qubit_boundary qubit ;;;
  append [(Op OpType.measure, Seq [Int qubit])] ;;;
  ret NoReturn.

Definition measure_all : M reference :=
  append [(Op OpType.measure_all, Kind OpType.measure_all)] ;;;
  ret NoReturn.

Definition get_operations : M (list operation) :=
  self <- get ;;
  ret (operations self).

Definition set_provider (p : pyval) : M unit :=
  fun self =>
    (Return tt,
     {| qubits := qubits self;
        operations := operations self;
        converted_q_circuit := converted_q_circuit self;
        provider := p |},
     []).

Definition set_converted_q_circuit (c : option native) : M unit :=
  fun self =>
    (Return tt,
     {| qubits := qubits self;
        operations := operations self;
        converted_q_circuit := c;
        provider := provider self |},
     []).

Definition convert_circuit : M (option native) :=
  self <- get ;;
  emit (Converted (provider self)) ;;;
  if decide (provider self = IBM_PROVIDER) then
    call (to_qiskit self (qubits self))
  else if decide (provider self = GOOGLE_PROVIDER) then
    call (to_cirq self (qubits self))
  else if decide (provider self = IONQ_PROVIDER) then
    call (to_cirq self (qubits self))
  else if decide (provider self = MICROSOFT_PROVIDER) then
    call (to_q_sharp self (qubits self))
  else if decide (provider self = AMAZON_PROVIDER) then
    call (to_braket self (qubits self))
  else
    ret None.

Definition is_None {A} (x : option A) : bool :=
  match x with None => true | Some _ => false end.

Definition check_and_convert (provider_ : pyval) : M unit :=
  self <- get ;;
  if is_None (converted_q_circuit self)
     || negb (bool_decide (provider self = provider_))
  then
    set_provider provider_ ;;;
    converted_q_circuit <- convert_circuit ;;
    set_converted_q_circuit converted_q_circuit
  else
    ret tt.

Definition draw_circuit (provider_ : pyval) : M unit :=
  check_and_convert provider_ ;;;
  self <- get ;;
  if decide (provider self = IBM_PROVIDER) then
    match converted_q_circuit self with
    | Some c => emit (Printed true (Some c))
    | None => raise AttributeError
    end
  else if decide (provider self = GOOGLE_PROVIDER) then
    emit (Printed false (converted_q_circuit self))
  else if decide (provider self = MICROSOFT_PROVIDER) then
    ret tt
  else if decide (provider self = AMAZON_PROVIDER) then
    emit (Printed false (converted_q_circuit self))
  else
    ret tt.

(** The arguments in the order of the signature; a caller that leaves
    one out passes its default, named below. *)
Definition execute (provider_ simulator_name repetitions api device
    default_target bucket poll_timeout_seconds poll_interval_seconds
    directory : pyval) : M (option counts) :=
  check_and_convert provider_ ;;;
  self <- get ;;
  if decide (provider self = IBM_PROVIDER) then
    emit (Executed Qiskit) ;;;
    r <- call (on_qiskit (converted_q_circuit self)
                 simulator_name repetitions api device) ;;
    ret (Some r)
  else if decide (provider self = GOOGLE_PROVIDER) then
    operations_ <- get_operations ;;
    emit (Executed Cirq) ;;;
    r <- call (on_cirq (converted_q_circuit self)
                 simulator_name repetitions api operations_) ;;
    ret (Some r)
  else if decide (provider self = AMAZON_PROVIDER) then
    emit (Executed Braket) ;;;
    r <- call (on_braket (converted_q_circuit self)
                 simulator_name repetitions device bucket directory
                 poll_timeout_seconds poll_interval_seconds) ;;
    ret (Some r)
  else if decide (provider self = IONQ_PROVIDER) then
    match api with
    | PyNone => raise (APIDetailsNotFoundError IONQ_API_DETAILS_NOT_PROVIDED)
    | _ =>
        operations_ <- get_operations ;;
        emit (Executed IonQ) ;;;
        r <- call (on_ionq (converted_q_circuit self)
                     default_target repetitions api operations_) ;;
        ret (Some r)
    end
  else
    ret None.

Definition default_api : pyval := PyNone.
Definition default_device : pyval := PyNone.
Definition default_default_target : pyval := PyStr "simulator".
Definition default_bucket : pyval := PyNone.
Definition default_poll_timeout_seconds : pyval := PyInt 100.
Definition default_poll_interval_seconds : pyval := PyInt 10.
Definition default_directory : pyval := PyNone.

Definition superposition (qubit : Z) : M reference :=
  h_gate qubit ;;;
  ret NoReturn.

Definition entangle (qubit1 qubit2 : Z) : M reference :=
  superposition qubit1 ;;;
  cx_gate qubit1 qubit2 ;;;
  ret NoReturn.

Definition phase_kickback (qubit : Z) : M reference :=
  x_gate qubit ;;;
  h_gate qubit ;;;
  ret NoReturn.

(** [d[key]] *)
Definition getitem (d : gmap string pyval) (key : string) : M pyval :=
  match d !! key with
  | Some v => ret v
  | None => raise (KeyError key)
  end.

(** [dflt if key not in d else d[key]] *)
Definition item_or (dflt : pyval) (d : gmap string pyval) (key : string) : pyval :=
  match d !! key with
  | None => dflt
  | Some v => v
  end.

(** The body of the loop over the built-in provider list. *)
Definition compare_default_body (providers_list : list pyval) (repetitions : pyval)
    (provider_ : nat) (output_dict : gmap pyval (option counts))
    : M (gmap pyval (option counts)) :=
  results <- execute (providers_list !!! provider_) DEFAULT_SIMULATOR
               repetitions default_api default_device
               default_default_target default_bucket
               default_poll_timeout_seconds
               default_poll_interval_seconds default_directory ;;
  ret (<[providers_list !!! provider_ := results]> output_dict).

(** The body of the loop over an explicit list of configurations. *)
Definition compare_config_body (provider_json : gmap string pyval)
    (output_dict : gmap pyval (option counts))
    : M (gmap pyval (option counts)) :=
  provider_ <- getitem provider_json "provider" ;;
  let api := item_or PyNone provider_json "api" in
  let device := item_or PyNone provider_json "device" in
  let bucket := item_or PyNone provider_json "bucket" in
  let directory := item_or PyNone provider_json "directory" in
  let simulator := item_or DEFAULT_SIMULATOR provider_json "simulator" in
  let repetitions := item_or DEFAULT_REPETITIONS provider_json "repetitions" in
  let poll_timeout_seconds :=
    item_or (PyInt 100) provider_json "poll_timeout_seconds" in
  let poll_interval_seconds :=
    item_or (PyInt 10) provider_json "poll_interval_seconds" in
  results <- execute provider_ simulator repetitions api device
               default_default_target bucket poll_timeout_seconds
               poll_interval_seconds directory ;;
  key <- getitem provider_json "provider" ;;
  ret (<[key := results]> output_dict).

Definition compare_results (providers_list : option (list (gmap string pyval)))
    (repetitions : pyval) : M (gmap pyval (option counts)) :=
  let output_dict : gmap pyval (option counts) := ∅ in
  match providers_list with
  | None =>
      let providers_list := [GOOGLE_PROVIDER; IBM_PROVIDER; AMAZON_PROVIDER] in
      for_each_with (seq 0 (length providers_list))
        (compare_default_body providers_list repetitions) output_dict
  | Some providers_list =>
      for_each_with providers_list compare_config_body output_dict
  end.

(** What a successful builder call leaves behind: the same object with
    one more operation at the end of its log. *)
Definition appended (self self' : QCircuit) (op : operation) : Prop :=
  operations self' = operations self ++ [op]
  /\ converted_q_circuit self' = converted_q_circuit self
  /\ provider self' = provider self
  /\ qubits self' = qubits self.

(** ** Calls of the builder surface

    One constructor per gate-building or measuring method, with the
    arguments of the call. *)
Inductive builder_call : Type :=
  | call_x_gate (qubit : Z)
  | call_y_gate (qubit : Z)
  | call_z_gate (qubit : Z)
  | call_h_gate (qubit : Z)
  | call_cx_gate (control_qubit target_qubit : Z)
  | call_cz_gate (control_qubit target_qubit : Z)
  | call_ccx_gate (control_qubit1 control_qubit2 target_qubit : Z)
  | call_ry_gate (theta : pyval) (qubit : Z)
  | call_ryy_gate (theta : pyval) (qubit1 qubit2 : Z)
  | call_rzz_gate (theta : pyval) (qubit1 qubit2 : Z)
  | call_rzx_gate (theta : pyval) (qubit1 qubit2 : Z)
  | call_rz_gate (phi : pyval) (qubit : Z)
  | call_s_gate (qubit : Z)
  | call_sdg_gate (qubit : Z)
  | call_swap_gate (qubit1 qubit2 : Z)
  | call_iswap_gate (qubit_a qubit_b : Z)
  | call_sx_gate (qubit : Z)
  | call_sxd_gate (qubit : Z)
  | call_t_gate (qubit : Z)
  | call_td_gate (qubit : Z)
  | call_u_gate (theta phi lam : pyval) (qubit : Z)
  | call_u1_gate (theta : pyval) (qubit : Z)
  | call_u2_gate (phi lam : pyval) (qubit : Z)
  | call_u3_gate (theta phi lam : pyval) (qubit : Z)
  | call_cy_gate (control_qubit target_qubit : Z)
  | call_i_gate (qubit : Z)
  | call_rccx_gate (control_qubit1 control_qubit2 target_qubit : Z)
  | call_rc3x_gate (control_qubit1 control_qubit2 control_qubit3 target_qubit : Z)
  | call_rxx_gate (theta : pyval) (qubit1 qubit2 : Z)
  | call_rx_gate (theta : pyval) (qubit : Z)
  | call_r_gate (theta phi : pyval) (qubit : Z)
  | call_p_gate (theta : pyval) (qubit : Z)
  | call_c3x_gate (control_qubit1 control_qubit2 control_qubit3 target_qubit : Z)
  | call_c3sx_gate (control_qubit1 control_qubit2 control_qubit3 target_qubit : Z)
  | call_c4x_gate (control_qubit1 control_qubit2 control_qubit3 control_qubit4 target_qubit : Z)
  | call_dcx_gate (control_qubit1 control_qubit2 : Z)
  | call_ch_gate (control_qubit target_qubit : Z)
  | call_csx_gate (control_qubit target_qubit : Z)
  | call_cswap_gate (control_qubit target_qubit1 target_qubit2 : Z)
  | call_cphase_gate (theta : pyval) (control_qubit target_qubit : Z)
  | call_crx_gate (theta : pyval) (control_qubit target_qubit : Z)
  | call_cry_gate (theta : pyval) (control_qubit target_qubit : Z)
  | call_crz_gate (theta : pyval) (control_qubit target_qubit : Z)
  | call_cu_gate (theta phi lam gamma : pyval) (control_qubit target_qubit : Z)
  | call_cu1_gate (theta : pyval) (control_qubit target_qubit : Z)
  | call_cu3_gate (theta phi lam : pyval) (control_qubit target_qubit : Z)
  | call_mcx_gate (control_qubits : list Z) (target_qubit : Z)
      (ancilla_qubits : list Z) (mode : pyval)
  | call_mcxgc_gate (control_qubits : list Z) (target_qubit : Z)
  | call_mcxvchain_gate (control_qubits : list Z) (target_qubit : Z) (dirty_ancilla : pyval)
  | call_mcxrec_gate (control_qubits : list Z) (target_qubit : Z)
  | call_mcp_gate (lam : pyval) (control_qubits : list Z) (target_qubit : Z)
  | call_mct_gate (control_qubits : list Z) (target_qubit : Z)
      (ancilla_qubits : option (list Z)) (mode : pyval)
  | call_measure (qubit : Z)
  | call_measure_all.

Definition invoke (g : builder_call) : M reference :=
  match g with
  | call_x_gate a1 => x_gate a1
  | call_y_gate a1 => y_gate a1
  | call_z_gate a1 => z_gate a1
  | call_h_gate a1 => h_gate a1
  | call_cx_gate a1 a2 => cx_gate a1 a2
  | call_cz_gate a1 a2 => cz_gate a1 a2
  | call_ccx_gate a1 a2 a3 => ccx_gate a1 a2 a3
  | call_ry_gate a1 a2 => ry_gate a1 a2
  | call_ryy_gate a1 a2 a3 => ryy_gate a1 a2 a3
  | call_rzz_gate a1 a2 a3 => rzz_gate a1 a2 a3
  | call_rzx_gate a1 a2 a3 => rzx_gate a1 a2 a3
  | call_rz_gate a1 a2 => rz_gate a1 a2
  | call_s_gate a1 => s_gate a1
  | call_sdg_gate a1 => sdg_gate a1
  | call_swap_gate a1 a2 => swap_gate a1 a2
  | call_iswap_gate a1 a2 => iswap_gate a1 a2
  | call_sx_gate a1 => sx_gate a1
  | call_sxd_gate a1 => sxd_gate a1
  | call_t_gate a1 => t_gate a1
  | call_td_gate a1 => td_gate a1
  | call_u_gate a1 a2 a3 a4 => u_gate a1 a2 a3 a4
  | call_u1_gate a1 a2 => u1_gate a1 a2
  | call_u2_gate a1 a2 a3 => u2_gate a1 a2 a3
  | call_u3_gate a1 a2 a3 a4 => u3_gate a1 a2 a3 a4
  | call_cy_gate a1 a2 => cy_gate a1 a2
  | call_i_gate a1 => i_gate a1
  | call_rccx_gate a1 a2 a3 => rccx_gate a1 a2 a3
  | call_rc3x_gate a1 a2 a3 a4 => rc3x_gate a1 a2 a3 a4
  | call_rxx_gate a1 a2 a3 => rxx_gate a1 a2 a3
  | call_rx_gate a1 a2 => rx_gate a1 a2
  | call_r_gate a1 a2 a3 => r_gate a1 a2 a3
  | call_p_gate a1 a2 => p_gate a1 a2
  | call_c3x_gate a1 a2 a3 a4 => c3x_gate a1 a2 a3 a4
  | call_c3sx_gate a1 a2 a3 a4 => c3sx_gate a1 a2 a3 a4
  | call_c4x_gate a1 a2 a3 a4 a5 => c4x_gate a1 a2 a3 a4 a5
  | call_dcx_gate a1 a2 => dcx_gate a1 a2
  | call_ch_gate a1 a2 => ch_gate a1 a2
  | call_csx_gate a1 a2 => csx_gate a1 a2
  | call_cswap_gate a1 a2 a3 => cswap_gate a1 a2 a3
  | call_cphase_gate a1 a2 a3 => cphase_gate a1 a2 a3
  | call_crx_gate a1 a2 a3 => crx_gate a1 a2 a3
  | call_cry_gate a1 a2 a3 => cry_gate a1 a2 a3
  | call_crz_gate a1 a2 a3 => crz_gate a1 a2 a3
  | call_cu_gate a1 a2 a3 a4 a5 a6 => cu_gate a1 a2 a3 a4 a5 a6
  | call_cu1_gate a1 a2 a3 => cu1_gate a1 a2 a3
  | call_cu3_gate a1 a2 a3 a4 a5 => cu3_gate a1 a2 a3 a4 a5
  | call_mcx_gate a1 a2 a3 a4 => mcx_gate a1 a2 a3 a4
  | call_mcxgc_gate a1 a2 => mcxgc_gate a1 a2
  | call_mcxvchain_gate a1 a2 a3 => mcxvchain_gate a1 a2 a3
  | call_mcxrec_gate a1 a2 => mcxrec_gate a1 a2
  | call_mcp_gate a1 a2 a3 => mcp_gate a1 a2 a3
  | call_mct_gate a1 a2 a3 a4 => mct_gate a1 a2 a3 a4
  | call_measure a1 => measure a1
  | call_measure_all => measure_all
  end.

(** ** A client of the facade

    A client issues requests one after the other against the same
    object; a request that raises leaves the object as the exception
    found it, and the client goes on with the next request. *)
Inductive request : Type :=
  | Build (g : builder_call)
  | Draw (provider_ : pyval)
  | Execute (provider_ simulator_name repetitions api device default_target
             bucket poll_timeout_seconds poll_interval_seconds directory : pyval).

Definition serve (r : request) (self : QCircuit) : QCircuit * list event :=
  match r with
  | Build g => let '(_, self', log) := invoke g self in (self', log)
  | Draw provider_ =>
      let '(_, self', log) := draw_circuit provider_ self in (self', log)
  | Execute provider_ simulator_name repetitions api device default_target
            bucket poll_timeout_seconds poll_interval_seconds directory =>
      let '(_, self', log) :=
        execute provider_ simulator_name repetitions api device default_target
          bucket poll_timeout_seconds poll_interval_seconds directory self in
      (self', log)
  end.

Fixpoint session (rs : list request) (self : QCircuit) : QCircuit * list event :=
  match rs with
  | [] => (self, [])
  | r :: rest =>
      let '(self1, log1) := serve r self in
      let '(self2, log2) := session rest self1 in
      (self2, log1 ++ log2)
  end.

(** The provider a request asks for, if it asks for a translated circuit. *)
Definition requested (r : request) : option pyval :=
  match r with
  | Build _ => None
  | Draw provider_ => Some provider_
  | Execute provider_ _ _ _ _ _ _ _ _ _ => Some provider_
  end.

(** The translation counter: how often [convert_circuit] was entered. *)
Definition is_conversion (ev : event) : bool :=
  match ev with Converted _ => true | _ => false end.

Definition translations (log : list event) : nat :=
  length (List.filter is_conversion log).

(** How often an executor was called. *)
Definition is_execution (ev : event) : bool :=
  match ev with Executed _ => true | _ => false end.

Definition executions (log : list event) : nat :=
  length (List.filter is_execution log).

(** Whether a request asks for a translated circuit. *)
Definition asks (r : request) : bool :=
  match requested r with Some _ => true | None => false end.

(** The object after [self.provider = p]. *)
Definition retarget (p : pyval) (self : QCircuit) : QCircuit :=
  {| qubits := qubits self;
     operations := operations self;
     converted_q_circuit := converted_q_circuit self;
     provider := p |}.

(** The outcome of [convert_circuit] on the object once its provider is
  [p]: a native circuit, [None], or the exception of the translator. *)
Definition translation (p : pyval) (self : QCircuit) : outcome (option native) :=
  (convert_circuit (retarget p self)).1.1.

(** The object after [check_and_convert] stored [c] as the translation
  for [p]. *)
Definition translated (p : pyval) (c : option native) (self : QCircuit)
    : QCircuit :=
  {| qubits := qubits self;
     operations := operations self;
     converted_q_circuit := c;
     provider := p |}.

(** The provider [p] translates every circuit to an actual native
  circuit: its translator returns, and not [None]. *)
Definition translates (p : pyval) : Prop :=
  forall self : QCircuit, exists c, translation p self = Return (Some c).

(** The condition under which [check_and_convert p] translates. *)
Definition stale (p : pyval) (self : QCircuit) : Prop :=
  converted_q_circuit self = None \/ provider self <> p.

(** What [execute] makes of the outcome of an executor. *)
Definition handed_back (o : outcome counts) : outcome (option counts) :=
  match o with
  | Return r => Return (Some r)
  | Raise e => Raise e
  end.

(** The call of [execute] that a configuration record with provider [p]
    stands for, in the words of the comparison surface: every key other
    than the provider falls back to its default when absent ([api],
    [device], [bucket] and [directory] to [None], [simulator] and
    [repetitions] to the library defaults, the poll timeout to 100 and
    the poll interval to 10), and the target is left at ['simulator']. *)
Definition execute_with (p : pyval) (d : gmap string pyval) : M (option counts) :=
  execute p
    (default DEFAULT_SIMULATOR (d !! "simulator"))
    (default DEFAULT_REPETITIONS (d !! "repetitions"))
    (default PyNone (d !! "api"))
    (default PyNone (d !! "device"))
    (PyStr "simulator")
    (default PyNone (d !! "bucket"))
    (default (PyInt 100) (d !! "poll_timeout_seconds"))
    (default (PyInt 10) (d !! "poll_interval_seconds"))
    (default PyNone (d !! "directory")).

(** ** What a builder call checks and what it records *)

(** The indices a call submits to [check_qubit_boundary], in the order
    of the checks. *)
Definition checked_qubits (g : builder_call) : list Z :=
  match g with
  | call_x_gate qubit => [qubit]
  | call_y_gate qubit => [qubit]
  | call_z_gate qubit => [qubit]
  | call_h_gate qubit => [qubit]
  | call_cx_gate control_qubit target_qubit => [control_qubit; target_qubit]
  | call_cz_gate control_qubit _ => [control_qubit]
  | call_ccx_gate control_qubit1 control_qubit2 target_qubit =>
      [control_qubit1; control_qubit2; target_qubit]
  | call_ry_gate _ qubit => [qubit]
  | call_ryy_gate _ qubit1 qubit2 => [qubit1; qubit2]
  | call_rzz_gate _ qubit1 qubit2 => [qubit1; qubit2]
  | call_rzx_gate _ qubit1 qubit2 => [qubit1; qubit2]
  | call_rz_gate _ qubit => [qubit]
  | call_s_gate qubit => [qubit]
  | call_sdg_gate qubit => [qubit]
  | call_swap_gate qubit1 qubit2 => [qubit1; qubit2]
  | call_iswap_gate qubit_a qubit_b => [qubit_a; qubit_b]
  | call_sx_gate qubit => [qubit]
  | call_sxd_gate qubit => [qubit]
  | call_t_gate qubit => [qubit]
  | call_td_gate qubit => [qubit]
  | call_u_gate _ _ _ qubit => [qubit]
  | call_u1_gate _ qubit => [qubit]
  | call_u2_gate _ _ qubit => [qubit]
  | call_u3_gate _ _ _ qubit => [qubit]
  | call_cy_gate control_qubit _ => [control_qubit]
  | call_i_gate qubit => [qubit]
  | call_rccx_gate control_qubit1 control_qubit2 target_qubit =>
      [control_qubit1; control_qubit2; target_qubit]
  | call_rc3x_gate control_qubit1 control_qubit2 control_qubit3 target_qubit =>
      [control_qubit1; control_qubit2; control_qubit3; target_qubit]
  | call_rxx_gate _ qubit1 qubit2 => [qubit1; qubit2]
  | call_rx_gate _ qubit => [qubit]
  | call_r_gate _ _ qubit => [qubit]
  | call_p_gate _ qubit => [qubit]
  | call_c3x_gate control_qubit1 control_qubit2 control_qubit3 target_qubit =>
      [control_qubit1; control_qubit2; control_qubit3; target_qubit]
  | call_c3sx_gate control_qubit1 control_qubit2 control_qubit3 target_qubit =>
      [control_qubit1; control_qubit2; control_qubit3; target_qubit]
  | call_c4x_gate control_qubit1 control_qubit2 control_qubit3 control_qubit4
      target_qubit =>
      [control_qubit1; control_qubit2; control_qubit3; control_qubit4; target_qubit]
  | call_dcx_gate control_qubit1 control_qubit2 => [control_qubit1; control_qubit2]
  | call_ch_gate control_qubit target_qubit => [control_qubit; target_qubit]
  | call_csx_gate control_qubit target_qubit => [control_qubit; target_qubit]
  | call_cswap_gate control_qubit target_qubit1 target_qubit2 =>
      [control_qubit; target_qubit1; target_qubit2]
  | call_cphase_gate _ control_qubit target_qubit => [control_qubit; target_qubit]
  | call_crx_gate _ control_qubit target_qubit => [control_qubit; target_qubit]
  | call_cry_gate _ control_qubit target_qubit => [control_qubit; target_qubit]
  | call_crz_gate _ control_qubit target_qubit => [control_qubit; target_qubit]
  | call_cu_gate _ _ _ _ control_qubit target_qubit => [control_qubit; target_qubit]
  | call_cu1_gate _ control_qubit target_qubit => [control_qubit; target_qubit]
  | call_cu3_gate _ _ _ control_qubit target_qubit => [control_qubit; target_qubit]
  | call_mcx_gate control_qubits target_qubit _ _ => target_qubit :: control_qubits
  | call_mcxgc_gate control_qubits target_qubit => target_qubit :: control_qubits
  | call_mcxvchain_gate control_qubits target_qubit _ => target_qubit :: control_qubits
  | call_mcxrec_gate control_qubits target_qubit => target_qubit :: control_qubits
  | call_mcp_gate _ control_qubits target_qubit => target_qubit :: control_qubits
  | call_mct_gate _ target_qubit _ _ => [target_qubit]
  | call_measure qubit => [qubit]
  | call_measure_all => []
  end.

(** The calls that record an index they have not checked: [cz_gate] and
    [cy_gate] (the target), [mcx_gate] (the ancillas) and [mct_gate] (the
    controls and the ancillas). *)
Definition records_unchecked (g : builder_call) : bool :=
  match g with
  | call_cz_gate _ _ | call_cy_gate _ _
  | call_mcx_gate _ _ _ _ | call_mct_gate _ _ _ _ => true
  | _ => false
  end.

(** The integers found in a stored value, left to right. *)
Fixpoint ints (d : pydata) : list Z :=
  match d with
  | Val (PyInt z) => [z]
  | Val _ => []
  | Kind _ => []
  | Seq items =>
      (fix go (l : list pydata) : list Z :=
         match l with
         | [] => []
         | x :: rest => ints x ++ go rest
         end) items
  end.

(** The qubit indices of an operation: the integers stored under its
    [OpType] key ([constants.PARAMS] holds parameters, not qubits). *)
Fixpoint op_qubits (op : operation) : list Z :=
  match op with
  | [] => []
  | (Op _, value) :: rest => ints value ++ op_qubits rest
  | (PARAMS, _) :: rest => op_qubits rest
  end.

(** Every index in the log is below the qubit count. *)
Definition bounded (self : QCircuit) : Prop :=
  Forall (fun op => Forall (fun q => q < qubits self) (op_qubits op))
         (operations self).

End Facade.

(** ** Sample collaborators

  A stand-in for the modules outside the class, used to run the facade
  on concrete inputs: the five provider labels are distinct strings, a
  translator returns the log of the object it was given under the name
  of its target, and an executor reports every shot on the all-zero
  string, unless it is asked for the simulator ["offline"], on which it
  fails.  The Qiskit translator can be exchanged for one that returns
  [None] or one that raises. *)
Module Sample.

Inductive circuit : Type :=
  | Native (target : string) (ops : list operation) (n : Z).

Definition translator (target : string) (self : attributes circuit) (n : Z)
    : outcome (option circuit) :=
  Return (Some (Native target (operations self) n)).


Definition unsupported (self : attributes circuit) (n : Z)
    : outcome (option circuit) :=
  Raise (BackendError (PyStr "unsupported")).

Definition run (simulator_name repetitions : pyval)
    : outcome (list (string * pyval)) :=
  match simulator_name with
  | PyStr "offline" => Raise (BackendError simulator_name)
  | _ => Return [("0"%string, repetitions)]
  end.

Definition with_qiskit
    (qiskit : attributes circuit -> Z -> outcome (option circuit))
    : Collaborators := {|
  native := circuit;
  counts := list (string * pyval);
  IBM_PROVIDER := PyStr "IBM";
  GOOGLE_PROVIDER := PyStr "Google";
  IONQ_PROVIDER := PyStr "IonQ";
  MICROSOFT_PROVIDER := PyStr "Microsoft";
  AMAZON_PROVIDER := PyStr "Amazon";
  DEFAULT_PROVIDER := PyStr "IBM";
  DEFAULT_SIMULATOR := PyStr "default";
  DEFAULT_REPETITIONS := PyInt 1000;
  QUBIT_OUT_OF_BOUND := "qubit out of bound";
  IONQ_API_DETAILS_NOT_PROVIDED := "IonQ API details not provided";
  to_qiskit := qiskit;
  to_cirq := translator "cirq";
  to_q_sharp := translator "qsharp";
  to_braket := translator "braket";
  on_qiskit _ simulator_name repetitions _ _ := run simulator_name repetitions;
  on_cirq _ simulator_name repetitions _ _ := run simulator_name repetitions;
  on_braket _ simulator_name repetitions _ _ _ _ _ := run simulator_name repetitions;
  on_ionq _ target repetitions _ _ := run target repetitions
|}.

Definition collaborators : Collaborators := with_qiskit (translator "qiskit").

(** A cached translation. *)
Definition cached (target : string) (ops : list operation) (n : Z)
    : option (@native collaborators) :=
  Some (Native target ops n).

(** [QCircuit(2)] *)
Definition two_qubits : @QCircuit collaborators :=
  @__init__ collaborators 2 (@DEFAULT_PROVIDER collaborators).

(** Configuration records for [compare_results]. *)
Definition ibm : gmap string pyval := {[ "provider" := PyStr "IBM" ]}.
Definition google : gmap string pyval :=
  {[ "provider" := PyStr "Google"; "repetitions" := PyInt 50 ]}.
Definition ionq_without_api : gmap string pyval := {[ "provider" := PyStr "IonQ" ]}.
Definition ibm_offline : gmap string pyval :=
  {[ "provider" := PyStr "IBM"; "simulator" := PyStr "offline" ]}.
Definition anonymous : gmap string pyval := {[ "repetitions" := PyInt 50 ]}.

End Sample.

(** ** The RCCX gate of the Cirq backend *)

Module RCCXGate.

(** The entries of the matrix are 0, 1, -1, [1j] and [-1j]: complex
    numbers with integer parts, on which sums and products are exact
    in [complex128] as well. *)
Record complex : Type := Complex { re : Z; im : Z }.

Definition c0 : complex := Complex 0 0.
Definition c1 : complex := Complex 1 0.
Definition m1 : complex := Complex (-1) 0.
Definition j : complex := Complex 0 1.
Definition mj : complex := Complex 0 (-1).

Definition cadd (a b : complex) : complex := Complex (re a + re b) (im a + im b).
Definition cmul (a b : complex) : complex :=
  Complex (re a * re b - im a * im b) (re a * im b + im a * re b).
Definition conj (a : complex) : complex := Complex (re a) (- im a).

Definition matrix : Type := list (list complex).

Definition _num_qubits_ : nat := 3.

(** [_unitary_()], with [dtype] left at its default. *)
Definition _unitary_ : matrix :=
  [[c1; c0; c0; c0; c0; c0; c0; c0];
   [c0; c1; c0; c0; c0; c0; c0; c0];
   [c0; c0; c1; c0; c0; c0; c0; c0];
   [c0; c0; c0; c0; c0; c0; c0; mj];
   [c0; c0; c0; c0; c1; c0; c0; c0];
   [c0; c0; c0; c0; c0; m1; c0; c0];
   [c0; c0; c0; c0; c0; c0; c0; c1];
   [c0; c0; c0; j;  c0; c0; c1; c0]].

Definition _circuit_diagram_info_ : list string :=
  ["RCCX_c1"; "RCCX_c2"; "RCCX_t"]%string.

(** Matrix algebra on lists of rows. *)
Definition entry (m : matrix) (r c : nat) : complex := nth c (nth r m []) c0.

Definition rows (m : matrix) : nat := length m.

Definition square (n : nat) (m : matrix) : Prop :=
  length m = n /\ Forall (fun row => length row = n) m.

Definition build (n : nat) (f : nat -> nat -> complex) : matrix :=
  map (fun r => map (fun c => f r c) (seq 0 n)) (seq 0 n).

Definition csum (l : list complex) : complex := fold_right cadd c0 l.

Definition matmul (n : nat) (a b : matrix) : matrix :=
  build n (fun r c => csum (map (fun k => cmul (entry a r k) (entry b k c)) (seq 0 n))).

Definition dagger (n : nat) (a : matrix) : matrix :=
  build n (fun r c => conj (entry a c r)).

Definition identity (n : nat) : matrix :=
  build n (fun r c => if Nat.eqb r c then c1 else c0).

Definition unitary (n : nat) (u : matrix) : Prop :=
  matmul n (dagger n u) u = identity n /\ matmul n u (dagger n u) = identity n.

End RCCXGate.

(** * Properties *)

Section BuilderProperties.
Context `{E : Collaborators}.

Lemma check_qubit_boundary_accepts (qubit : Z) (self : QCircuit) :
  qubit <= qubits self - 1 ->
  check_qubit_boundary qubit self = (Return tt, self, []).
Proof.
  intros Hle. unfold check_qubit_boundary, bind, get; simpl.
  destruct (Z.gtb_spec qubit (qubits self - 1)); [lia | reflexivity].
Qed.

Lemma check_qubit_boundary_rejects (qubit : Z) (self : QCircuit) :
  qubit > qubits self - 1 ->
  check_qubit_boundary qubit self
  = (Raise (CircuitError QUBIT_OUT_OF_BOUND), self, []).
Proof.
  intros Hgt. unfold check_qubit_boundary, bind, get; simpl.
  destruct (Z.gtb_spec qubit (qubits self - 1)); [reflexivity | lia].
Qed.

Lemma check_qubit_boundary_cases (qubit : Z) (self : QCircuit) :
  check_qubit_boundary qubit self = (Return tt, self, [])
  \/ check_qubit_boundary qubit self
     = (Raise (CircuitError QUBIT_OUT_OF_BOUND), self, []).
Proof.
  destruct (Z_le_gt_dec qubit (qubits self - 1)).
  - left. by apply check_qubit_boundary_accepts.
  - right. by apply check_qubit_boundary_rejects.
Qed.

(** The loop over the control qubits checks and does nothing else. *)
Lemma for_each_check_cases (control_qubits : list Z) (self : QCircuit) :
  for_each control_qubits (fun qubit => check_qubit_boundary qubit) self
  = (Return tt, self, [])
  \/ for_each control_qubits (fun qubit => check_qubit_boundary qubit) self
     = (Raise (CircuitError QUBIT_OUT_OF_BOUND), self, []).
Proof.
  induction control_qubits as [|q rest IH]; simpl.
  - by left.
  - unfold bind.
    destruct (check_qubit_boundary_cases q self) as [-> | ->]; [|by right].
    destruct IH as [-> | ->]; [by left | by right].
Qed.

Lemma append_appended (op : operation) (self : QCircuit) :
  exists self', append op self = (Return tt, self', []) /\ appended self self' op.
Proof. eexists. split; [reflexivity|]. by repeat split. Qed.

Ltac run_checks self :=
  unfold bind;
  repeat match goal with
  | |- context [check_qubit_boundary ?q self] =>
      destruct (check_qubit_boundary_cases q self) as [-> | ->];
      [| left; eexists; reflexivity]
  | |- context [for_each ?cs _ self] =>
      destruct (for_each_check_cases cs self) as [-> | ->];
      [| left; eexists; reflexivity]
  end;
  right; unfold append, ret; simpl;
  do 3 eexists; split; [reflexivity|]; by repeat split.

(** The two ways a builder call can end. *)
Lemma invoke_atomic (g : builder_call) (self : QCircuit) :
  (exists msg, invoke g self = (Raise (CircuitError msg), self, []))
  \/ (exists r op self',
        invoke g self = (Return r, self', []) /\ appended self self' op).
Proof.
  destruct g; simpl.
  all: unfold x_gate, y_gate, z_gate, h_gate, cx_gate, cz_gate, ccx_gate,
         ry_gate, ryy_gate, rzz_gate, rzx_gate, rz_gate, s_gate, sdg_gate,
         swap_gate, iswap_gate, sx_gate, sxd_gate, t_gate, td_gate, u_gate,
         u1_gate, u2_gate, u3_gate, cy_gate, i_gate, rccx_gate, rc3x_gate,
         rxx_gate, rx_gate, r_gate, p_gate, c3x_gate, c3sx_gate, c4x_gate,
         dcx_gate, ch_gate, csx_gate, cswap_gate, cphase_gate, crx_gate,
         cry_gate, crz_gate, cu_gate, cu1_gate, cu3_gate, mcx_gate,
         mcxgc_gate, mcxvchain_gate, mcxrec_gate, mcp_gate, mct_gate,
         measure, measure_all.
  all: run_checks self.
Qed.

(** C10. A builder call either raises [CircuitError] and leaves the
    object exactly as it was (operation log and cached translation
    included), or returns after appending exactly one operation at the
    end of the log, all earlier operations and the cached translation
    unchanged; it makes no call outside the class.  The quantification
    is over the calls of the builder surface, one per gate kind and the
    two measuring calls. *)
Theorem builder_call_atomic (g : builder_call) (self : QCircuit) :
  (exists msg, invoke g self = (Raise (CircuitError msg), self, []))
  \/ (exists r op self',
        invoke g self = (Return r, self', []) /\ appended self self' op).
Proof.
  destruct g; simpl.
  all: unfold x_gate, y_gate, z_gate, h_gate, cx_gate, cz_gate, ccx_gate,
         ry_gate, ryy_gate, rzz_gate, rzx_gate, rz_gate, s_gate, sdg_gate,
         swap_gate, iswap_gate, sx_gate, sxd_gate, t_gate, td_gate, u_gate,
         u1_gate, u2_gate, u3_gate, cy_gate, i_gate, rccx_gate, rc3x_gate,
         rxx_gate, rx_gate, r_gate, p_gate, c3x_gate, c3sx_gate, c4x_gate,
         dcx_gate, ch_gate, csx_gate, cswap_gate, cphase_gate, crx_gate,
         cry_gate, crz_gate, cu_gate, cu1_gate, cu3_gate, mcx_gate,
         mcxgc_gate, mcxvchain_gate, mcxrec_gate, mcp_gate, mct_gate,
         measure, measure_all.
  all: run_checks self.
Qed.

(** Which calls hand the object back. *)
Lemma builder_call_returns (g : builder_call) (self self' : QCircuit)
  (r : reference) (log : list event) :
invoke g self = (Return r, self', log) ->
r = match g with
    | call_measure _ | call_measure_all => NoReturn
    | _ => Self
    end.
Proof.
destruct g; simpl.
all: unfold x_gate, y_gate, z_gate, h_gate, cx_gate, cz_gate, ccx_gate,
       ry_gate, ryy_gate, rzz_gate, rzx_gate, rz_gate, s_gate, sdg_gate,
       swap_gate, iswap_gate, sx_gate, sxd_gate, t_gate, td_gate, u_gate,
       u1_gate, u2_gate, u3_gate, cy_gate, i_gate, rccx_gate, rc3x_gate,
       rxx_gate, rx_gate, r_gate, p_gate, c3x_gate, c3sx_gate, c4x_gate,
       dcx_gate, ch_gate, csx_gate, cswap_gate, cphase_gate, crx_gate,
       cry_gate, crz_gate, cu_gate, cu1_gate, cu3_gate, mcx_gate,
       mcxgc_gate, mcxvchain_gate, mcxrec_gate, mcp_gate, mct_gate,
       measure, measure_all.
all: unfold bind;
  repeat match goal with
  | |- context [check_qubit_boundary ?q ?s] =>
      destruct (check_qubit_boundary_cases q s) as [-> | ->];
      [| discriminate]
  | |- context [for_each ?cs _ ?s] =>
      destruct (for_each_check_cases cs s) as [-> | ->];
      [| discriminate]
  end.
all: unfold append, ret; simpl; congruence.
Qed.

(** C1. On a circuit of two qubits, [cz_gate(0, 5)] raises nothing: it
    returns the circuit with an operation on index 5 at the end of the
    log.  The same indices are refused by [cx_gate], which checks the
    target as well as the control. *)
Theorem cz_gate_accepts_target_out_of_bounds (p : pyval) :
cz_gate 0 5 (__init__ 2 p)
= (Return Self,
   {| qubits := 2;
      operations := [[(Op OpType.cz_gate, Seq [Seq [Int 0]; Seq [Int 5]])]];
      converted_q_circuit := None;
      provider := p |},
   [])
/\ cx_gate 0 5 (__init__ 2 p)
   = (Raise (CircuitError QUBIT_OUT_OF_BOUND), __init__ 2 p, []).
Proof. split; reflexivity. Qed.

(** C6. [measure(0)] and [measure_all()] on a circuit of one qubit append
    their operation and hand back [None], not the circuit; [x_gate(0)]
    on the same circuit hands back the circuit. *)
Theorem measure_hands_back_none (p : pyval) :
measure 0 (__init__ 1 p)
= (Return NoReturn,
   {| qubits := 1;
      operations := [[(Op OpType.measure, Seq [Int 0])]];
      converted_q_circuit := None;
      provider := p |},
   [])
/\ measure_all (__init__ 1 p)
   = (Return NoReturn,
      {| qubits := 1;
         operations := [[(Op OpType.measure_all, Kind OpType.measure_all)]];
         converted_q_circuit := None;
         provider := p |},
      [])
/\ x_gate 0 (__init__ 1 p)
   = (Return Self,
      {| qubits := 1;
         operations := [[(Op OpType.x_gate, Seq [Int 0])]];
         converted_q_circuit := None;
         provider := p |},
      []).
Proof. repeat split; reflexivity. Qed.

(** C7. The operation recorded by [mcx_gate] holds the controls, the
    target, the ancillas and the number of controls, and nothing else:
    on a circuit of four qubits, [mcx_gate([0, 1], 2, [3], 'recursion')]
    records the indices 0, 1, 2, 3 and the parameter 2; and whatever the
    arguments, two calls that differ in [mode] only leave the same
    object behind.  [mcxvchain_gate] does record its [dirty_ancilla]. *)
Theorem mcx_gate_drops_mode :
(forall p,
   mcx_gate [0; 1] 2 [3] (PyStr "recursion") (__init__ 4 p)
   = (Return Self,
      {| qubits := 4;
         operations := [[(Op OpType.mcx_gate, Seq [Int 0; Int 1; Int 2; Int 3]);
                         (PARAMS, Seq [Int 2])]];
         converted_q_circuit := None;
         provider := p |},
      []))
/\ (forall control_qubits target_qubit ancilla_qubits mode mode' self,
      mcx_gate control_qubits target_qubit ancilla_qubits mode self
      = mcx_gate control_qubits target_qubit ancilla_qubits mode' self)
/\ (forall p dirty_ancilla,
      mcxvchain_gate [0; 1] 2 dirty_ancilla (__init__ 4 p)
      = (Return Self,
         {| qubits := 4;
            operations := [[(Op OpType.mcxvchain_gate, Seq [Int 0; Int 1; Int 2]);
                            (PARAMS, Seq [Int 2; Val dirty_ancilla])]];
            converted_q_circuit := None;
            provider := p |},
         [])).
Proof. repeat split; reflexivity. Qed.

End BuilderProperties.

Section FacadeProperties.
Context `{E : Collaborators}.

Lemma retarget_same (self : QCircuit) : retarget (provider self) self = self.
Proof. by destruct self. Qed.

Lemma convert_circuit_shape (self : QCircuit) :
exists o, convert_circuit self = (o, self, [Converted (provider self)]).
Proof.
unfold convert_circuit, bind, get, emit, call, ret; simpl.
repeat case_decide; eauto.
Qed.

Lemma convert_circuit_translation (p : pyval) (self : QCircuit) :
convert_circuit (retarget p self)
= (translation p self, retarget p self, [Converted p]).
Proof.
unfold translation.
destruct (convert_circuit_shape (retarget p self)) as [o ->]. reflexivity.
Qed.

Lemma stale_test (p : pyval) (self : QCircuit) :
is_None (converted_q_circuit self) || negb (bool_decide (provider self = p)) = true
<-> stale p self.
Proof.
unfold stale. rewrite orb_true_iff, negb_true_iff, bool_decide_eq_false.
destruct (converted_q_circuit self); simpl; intuition congruence.
Qed.

(** The translating branch, when the translator returns and when it
    raises: in the second case the assignment to the cache is not
    reached, the one to the provider is already done. *)
Lemma check_and_convert_stale (p : pyval) (self : QCircuit) :
stale p self ->
check_and_convert p self
= match translation p self with
  | Return c => (Return tt, translated p c self, [Converted p])
  | Raise e => (Raise e, retarget p self, [Converted p])
  end.
Proof.
intros Hs. apply stale_test in Hs.
unfold check_and_convert, bind at 1, get. rewrite Hs.
unfold bind, set_provider. fold (retarget p self).
rewrite convert_circuit_translation.
by destruct (translation p self).
Qed.

Lemma check_and_convert_stale_returns (p : pyval) (c : option native)
  (self : QCircuit) :
stale p self ->
translation p self = Return c ->
check_and_convert p self = (Return tt, translated p c self, [Converted p]).
Proof. intros Hs Ht. by rewrite check_and_convert_stale, Ht. Qed.

Lemma check_and_convert_stale_raises (p : pyval) (e : exn) (self : QCircuit) :
stale p self ->
translation p self = Raise e ->
check_and_convert p self = (Raise e, retarget p self, [Converted p]).
Proof. intros Hs Ht. by rewrite check_and_convert_stale, Ht. Qed.

Lemma check_and_convert_cached (p : pyval) (self : QCircuit) :
~ stale p self ->
check_and_convert p self = (Return tt, self, []).
Proof.
intros Hs. rewrite <- stale_test in Hs. apply not_true_is_false in Hs.
unfold check_and_convert, bind, get. rewrite Hs. reflexivity.
Qed.

Lemma stale_dec (p : pyval) (self : QCircuit) : stale p self \/ ~ stale p self.
Proof.
rewrite <- stale_test.
destruct (is_None _ || _); [by left | right; discriminate].
Qed.

(** After [check_and_convert p] the stored provider is [p], whichever
    branch was taken and however it ended. *)
Lemma check_and_convert_outcome (p : pyval) (self : QCircuit) :
exists o self1 log1,
  check_and_convert p self = (o, self1, log1)
  /\ provider self1 = p
  /\ operations self1 = operations self
  /\ qubits self1 = qubits self
  /\ executions log1 = 0%nat
  /\ (stale p self -> log1 = [Converted p])
  /\ (~ stale p self -> o = Return tt /\ self1 = self /\ log1 = []).
Proof.
destruct (stale_dec p self) as [Hs | Hs].
- rewrite check_and_convert_stale by done.
  destruct (translation p self) as [c | e]; do 3 eexists;
    (split; [reflexivity|]); by repeat split.
- exists (Return tt), self, [].
  rewrite check_and_convert_cached by done.
  repeat split; try done.
  unfold stale in Hs. destruct (decide (provider self = p)); [done | tauto].
Qed.

Lemma check_and_convert_returned (p : pyval) (self self1 : QCircuit)
  (o : outcome unit) (log1 : list event) :
check_and_convert p self = (o, self1, log1) ->
provider self1 = p
/\ operations self1 = operations self
/\ qubits self1 = qubits self
/\ executions log1 = 0%nat.
Proof.
intros Hc.
destruct (check_and_convert_outcome p self)
  as (o' & s & l & Hc' & Hp & Hops & Hq & Hex & _).
rewrite Hc in Hc'. injection Hc' as -> -> ->. done.
Qed.

Lemma translations_app (l1 l2 : list event) :
translations (l1 ++ l2) = (translations l1 + translations l2)%nat.
Proof. unfold translations. by rewrite List.filter_app, length_app. Qed.

Lemma executions_app (l1 l2 : list event) :
executions (l1 ++ l2) = (executions l1 + executions l2)%nat.
Proof. unfold executions. by rewrite List.filter_app, length_app. Qed.

(** Turns "not among these labels" into the inequalities the branch
    tests need. *)
Ltac labels_apart H :=
  repeat (apply not_elem_of_cons in H; destruct H as [? H]).

Ltac branches := repeat (case_decide; try (exfalso; congruence)).

(** [execute] on a provider it has no branch for. *)
Lemma execute_unrecognised (p simulator_name repetitions api device default_target
  bucket poll_timeout_seconds poll_interval_seconds directory : pyval)
  (self self1 : QCircuit) (log1 : list event) :
p ∉ [IBM_PROVIDER; GOOGLE_PROVIDER; AMAZON_PROVIDER; IONQ_PROVIDER] ->
check_and_convert p self = (Return tt, self1, log1) ->
execute p simulator_name repetitions api device default_target bucket
  poll_timeout_seconds poll_interval_seconds directory self
= (Return None, self1, log1).
Proof.
intros Hp Hc.
destruct (check_and_convert_returned _ _ _ _ _ Hc) as (Hprov & _).
labels_apart Hp.
unfold execute, bind at 1. rewrite Hc.
unfold bind, get, ret. rewrite Hprov. branches.
by rewrite app_nil_r.
Qed.

(** C9. For a provider that [execute] has no branch for, [execute]
    returns [None]: it raises nothing and calls no executor; the object
    and the log are those [check_and_convert] leaves.  The Microsoft
    provider, when its label differs from the four that [execute] knows,
    is such a provider, although [convert_circuit] translates for it
    (with [to_q_sharp]) and [draw_circuit] accepts it (printing
    nothing). *)
Theorem execute_unrecognised_returns_none
  (p simulator_name repetitions api device default_target
   bucket poll_timeout_seconds poll_interval_seconds directory : pyval)
  (self self1 : QCircuit) (log1 : list event) :
p ∉ [IBM_PROVIDER; GOOGLE_PROVIDER; AMAZON_PROVIDER; IONQ_PROVIDER] ->
check_and_convert p self = (Return tt, self1, log1) ->
execute p simulator_name repetitions api device default_target bucket
  poll_timeout_seconds poll_interval_seconds directory self
= (Return None, self1, log1)
/\ executions log1 = 0%nat
/\ (p = MICROSOFT_PROVIDER ->
    translation p self = to_q_sharp (retarget p self) (qubits self)
    /\ draw_circuit p self = (Return tt, self1, log1)).
Proof.
intros Hp Hc.
destruct (check_and_convert_returned _ _ _ _ _ Hc) as (Hprov & _ & _ & Hex).
split; [by apply execute_unrecognised|].
split; [done|].
intros ->. labels_apart Hp. split.
- unfold translation, convert_circuit, bind, get, emit, call, ret; simpl.
  branches. reflexivity.
- unfold draw_circuit, bind at 1. rewrite Hc.
  unfold bind, get, ret. rewrite Hprov. branches.
  by rewrite app_nil_r.
Qed.

(** C5. With the IonQ provider (its label differing from those of the
    three branches tested before it), [execute] raises
    [APIDetailsNotFoundError] with the message on the missing API details
    exactly when [api] is [None], and it does so before any executor is
    called: the log holds what [check_and_convert] logged and no
    execution.  When [api] is given, [on_ionq] is called and its outcome
    is the outcome of [execute]. *)
Theorem execute_ionq_requires_api
  (simulator_name repetitions api device default_target
   bucket poll_timeout_seconds poll_interval_seconds directory : pyval)
  (self self1 : QCircuit) (log1 : list event) :
IONQ_PROVIDER ∉ [IBM_PROVIDER; GOOGLE_PROVIDER; AMAZON_PROVIDER] ->
check_and_convert IONQ_PROVIDER self = (Return tt, self1, log1) ->
executions log1 = 0%nat
/\ (api = PyNone ->
    execute IONQ_PROVIDER simulator_name repetitions api device default_target
      bucket poll_timeout_seconds poll_interval_seconds directory self
    = (Raise (APIDetailsNotFoundError IONQ_API_DETAILS_NOT_PROVIDED), self1, log1))
/\ (api <> PyNone ->
    execute IONQ_PROVIDER simulator_name repetitions api device default_target
      bucket poll_timeout_seconds poll_interval_seconds directory self
    = (handed_back (on_ionq (converted_q_circuit self1) default_target
                      repetitions api (operations self1)),
       self1, log1 ++ [Executed IonQ])).
Proof.
intros Hp Hc.
destruct (check_and_convert_returned _ _ _ _ _ Hc) as (Hprov & _ & _ & Hex).
split; [done|].
labels_apart Hp.
split; intros Hapi.
- subst api. unfold execute, bind at 1. rewrite Hc.
  unfold bind, get, raise. rewrite Hprov. branches.
  by rewrite app_nil_r.
- unfold execute, bind at 1. rewrite Hc.
  unfold bind, get, get_operations, emit, call, ret, bind. rewrite Hprov.
  branches.
  destruct api; try done; simpl;
    destruct (on_ionq _ _ _ _ _); reflexivity.
Qed.


(** A request for a translated circuit runs [check_and_convert] first and
    translates nowhere else; the object it leaves is the one
    [check_and_convert] left. *)
Lemma serve_asks (r : request) (p : pyval) (self self1 : QCircuit)
  (log1 : list event) :
requested r = Some p ->
check_and_convert p self = (Return tt, self1, log1) ->
exists log2, serve r self = (self1, log1 ++ log2) /\ translations log2 = 0%nat.
Proof.
intros Hr Hc. destruct r as [g | q | q sim reps api dev tgt bkt pt pi dir];
  simpl in Hr; [discriminate | |]; injection Hr as ->; simpl.
- unfold draw_circuit, bind at 1. rewrite Hc.
  unfold bind, get, emit, raise, ret.
  repeat case_decide; try (destruct (converted_q_circuit self1)); simpl; eauto.
- unfold execute, bind at 1. rewrite Hc.
  unfold bind, get, get_operations, emit, call, raise, ret, bind.
  repeat case_decide;
    simpl;
    try (destruct (on_qiskit _ _ _ _ _));
    try (destruct (on_cirq _ _ _ _ _));
    try (destruct (on_braket _ _ _ _ _ _ _ _));
    try (destruct api; simpl; try (destruct (on_ionq _ _ _ _ _)));
    simpl; eauto.
Qed.

(** A builder call translates nothing and leaves cache and provider alone. *)
Lemma serve_build (g : builder_call) (self : QCircuit) :
exists self', serve (Build g) self = (self', [])
  /\ converted_q_circuit self' = converted_q_circuit self
  /\ provider self' = provider self.
Proof.
simpl. destruct (invoke_atomic g self)
  as [[msg ->] | (r & op & self' & -> & _ & Hc & Hp & _)]; eauto.
Qed.

(** Once the cache is filled for [p], requests for [p] and builder calls
    translate no more. *)
Lemma session_cached (p : pyval) (rs : list request) (self : QCircuit) :
Forall (fun r => requested r = None \/ requested r = Some p) rs ->
~ stale p self ->
translations (session rs self).2 = 0%nat.
Proof.
intros Hrs. revert self. induction Hrs as [|r rs Hr _ IH]; intros self Hs; [done|].
simpl. destruct r as [g | q | q sim reps api dev tgt bkt pt pi dir].
- destruct (serve_build g self) as (self' & -> & Hc & Hp).
  specialize (IH self'). destruct (session rs self') as [self2 log2]; simpl in *.
  apply IH. unfold stale in *. by rewrite Hc, Hp.
- destruct Hr as [Hr | Hr]; [discriminate|].
  destruct (serve_asks (Draw q) p self self [] Hr) as (log2 & -> & Hz);
    [by apply check_and_convert_cached|].
  specialize (IH self Hs). destruct (session rs self) as [self2 log3]; simpl in *.
  by rewrite translations_app, Hz, IH.
- destruct Hr as [Hr | Hr]; [discriminate|].
  destruct (serve_asks (Execute q sim reps api dev tgt bkt pt pi dir) p self self []
              Hr) as (log2 & -> & Hz);
    [by apply check_and_convert_cached|].
  specialize (IH self Hs). destruct (session rs self) as [self2 log3]; simpl in *.
  by rewrite translations_app, Hz, IH.
Qed.

(** A request whose [check_and_convert] raises ends there. *)
Lemma serve_asks_raised (r : request) (p : pyval) (e : exn)
  (self self1 : QCircuit) (log1 : list event) :
requested r = Some p ->
check_and_convert p self = (Raise e, self1, log1) ->
serve r self = (self1, log1).
Proof.
intros Hr Hc. destruct r as [g | q | q sim reps api dev tgt bkt pt pi dir];
  simpl in Hr; [discriminate | |]; injection Hr as ->; simpl.
- unfold draw_circuit, bind at 1. by rewrite Hc.
- unfold execute, bind at 1. by rewrite Hc.
Qed.

Lemma translated_not_stale (p : pyval) (c : native) (self : QCircuit) :
~ stale p (translated p (Some c) self).
Proof. intros [Hn | Hn]; simpl in Hn; [discriminate | done]. Qed.

Lemma session_once (p : pyval) (rs : list request) (self : QCircuit) :
Forall (fun r => requested r = None \/ requested r = Some p) rs ->
converted_q_circuit self = None ->
translates p ->
translations (session rs self).2 = if existsb asks rs then 1%nat else 0%nat.
Proof.
intros Hrs Hnone Htr. revert self Hnone.
induction Hrs as [|r rs Hr Hrs IH]; intros self Hnone; [done|].
simpl. destruct (requested r) as [q|] eqn:Hq.
- destruct Hr as [Hr | Hr]; [discriminate|]. injection Hr as ->.
  assert (Hs : stale p self) by by left.
  destruct (Htr self) as [c Hc].
  destruct (serve_asks r p self _ _ Hq
              (check_and_convert_stale_returns p (Some c) self Hs Hc))
    as (log2 & -> & Hz).
  pose proof (session_cached p rs (translated p (Some c) self) Hrs
                (translated_not_stale p c self)) as Hrest.
  destruct (session rs (translated p (Some c) self)) as [self2 log3]; simpl in *.
  unfold asks. rewrite Hq.
  change (Converted p :: log2 ++ log3) with ([Converted p] ++ log2 ++ log3).
  rewrite !translations_app, Hz, Hrest. reflexivity.
- destruct r as [g | |]; try discriminate.
  destruct (serve_build g self) as (self' & -> & Hc & _).
  specialize (IH self'). destruct (session rs self') as [self2 log2]; simpl in *.
  apply IH. by rewrite Hc.
Qed.

(** C3, as amended.  [check_and_convert p] enters [convert_circuit]
    exactly when the cached circuit is absent or the stored provider
    differs from [p]; otherwise it changes nothing; and when
    [convert_circuit] returns, its result is stored as the cache under
    provider [p].  Consequently, on an object with no cached circuit, a
    client that draws, executes and appends in any order but always asks
    for the same provider [p], a provider that translates every circuit
    to an actual native circuit, sees exactly one translation if it draws
    or executes at all, whatever it appends in between; and a draw or
    execute for a provider other than the stored one enters
    [convert_circuit] once more and, when that returns, replaces the
    cache by its result. *)
Theorem check_and_convert_memoizes (p : pyval) :
(forall self, translations (check_and_convert p self).2 = 1%nat <-> stale p self)
/\ (forall self, ~ stale p self ->
      check_and_convert p self = (Return tt, self, []))
/\ (forall self c, stale p self ->
      translation p self = Return c ->
      check_and_convert p self = (Return tt, translated p c self, [Converted p]))
/\ (forall rs self,
      Forall (fun r => requested r = None \/ requested r = Some p) rs ->
      converted_q_circuit self = None ->
      translates p ->
      translations (session rs self).2 = if existsb asks rs then 1%nat else 0%nat)
/\ (forall r self,
      requested r = Some p ->
      provider self <> p ->
      translations (serve r self).2 = 1%nat
      /\ provider (serve r self).1 = p
      /\ (forall c, translation p self = Return c ->
                    converted_q_circuit (serve r self).1 = c)).
Proof.
split.
{ intros self. destruct (stale_dec p self) as [Hs | Hs].
  - rewrite check_and_convert_stale by done.
    by destruct (translation p self).
  - rewrite check_and_convert_cached by done. by split. }
split; [apply check_and_convert_cached|].
split; [intros self c; apply check_and_convert_stale_returns|].
split; [intros rs self; apply session_once|].
intros r self Hr Hne.
assert (Hs : stale p self) by by right.
destruct (translation p self) as [c | e] eqn:Ht.
- destruct (serve_asks r p self _ _ Hr
              (check_and_convert_stale_returns p c self Hs Ht))
    as (log2 & -> & Hz).
  cbn [fst snd]. rewrite translations_app, Hz.
  repeat split. by intros c' [= <-].
- rewrite (serve_asks_raised r p e self _ _ Hr
             (check_and_convert_stale_raises p e self Hs Ht)).
  repeat split. intros c' [=].
Qed.

End FacadeProperties.

Section CompareProperties.
Context `{E : Collaborators}.

Lemma bind_returns {A B} (m : M A) (k : A -> M B) (self self' : QCircuit)
  (b : B) (log : list event) :
bind m k self = (Return b, self', log) ->
exists a self1 log1 log2,
  m self = (Return a, self1, log1)
  /\ k a self1 = (Return b, self', log2)
  /\ log = log1 ++ log2.
Proof.
unfold bind. destruct (m self) as [[[a | e] self1] log1]; [|discriminate].
destruct (k a self1) as [[r self2] log2] eqn:Hk.
intros [= -> -> <-]. by exists a, self1, log1, log2.
Qed.

Lemma bind_assoc {A B C} (m : M A) (k : A -> M B) (h : B -> M C) (self : QCircuit) :
bind (bind m k) h self = bind m (fun a => bind (k a) h) self.
Proof.
unfold bind. destruct (m self) as [[[a | e] self1] log1]; [|done].
destruct (k a self1) as [[[b | e] self2] log2]; [|done].
destruct (h b self2) as [[r self3] log3]. by rewrite app_assoc.
Qed.

Lemma for_each_with_app {A L} (xs ys : list A) (body : A -> L -> M L)
  (local : L) (self : QCircuit) :
for_each_with (xs ++ ys) body local self
= bind (for_each_with xs body local) (fun local' => for_each_with ys body local') self.
Proof.
revert local self. induction xs as [|x xs IH]; intros local self; simpl.
- unfold bind, ret. by destruct (for_each_with ys body local self) as [[r s] l].
- rewrite bind_assoc. unfold bind at 1 2.
  destruct (body x local self) as [[[a | e] self1] log1]; [|done].
  by rewrite IH.
Qed.

(** The loop body on a record: without a provider it raises [KeyError]
    before anything else happens; with provider [p] it is the call
    [execute_with] followed by the assignment to the output dictionary. *)
Lemma compare_config_body_anonymous (d : gmap string pyval)
  (out : gmap pyval (option counts)) (self : QCircuit) :
d !! "provider" = None ->
compare_config_body d out self = (Raise (KeyError "provider"), self, []).
Proof.
intros Hd. unfold compare_config_body, bind at 1, getitem. by rewrite Hd.
Qed.

Lemma compare_config_body_provider (d : gmap string pyval) (p : pyval)
  (out : gmap pyval (option counts)) (self : QCircuit) :
d !! "provider" = Some p ->
compare_config_body d out self
= bind (execute_with p d) (fun results => ret (<[p := results]> out)) self.
Proof.
intros Hd. unfold compare_config_body, bind at 1, getitem. rewrite Hd.
unfold ret at 1. cbn beta iota zeta.
unfold execute_with, item_or, default_default_target, bind, ret.
destruct (execute _ _ _ _ _ _ _ _ _ _ self) as [[[r | e] self1] log1];
  by rewrite ?app_nil_r.
Qed.

(** Where the loop stops: if the records before [d] went through and the
    body raises on [d], the loop raises there and the records after [d]
    are not looked at. *)
Lemma compare_results_stops (before after : list (gmap string pyval))
  (d : gmap string pyval) (repetitions : pyval) (self self1 self2 : QCircuit)
  (out1 : gmap pyval (option counts)) (log1 log2 : list event) (e : exn) :
compare_results (Some before) repetitions self = (Return out1, self1, log1) ->
compare_config_body d out1 self1 = (Raise e, self2, log2) ->
compare_results (Some (before ++ d :: after)) repetitions self
= (Raise e, self2, log1 ++ log2).
Proof.
unfold compare_results. intros Hb Hd.
rewrite for_each_with_app. unfold bind. rewrite Hb. simpl.
unfold bind. by rewrite Hd.
Qed.

(** C4. An exception raised while one record of an explicit list is
    executed is not recorded in the mapping: it leaves [compare_results]
    as it is.  If the records before it were executed and returned a
    mapping, and [execute] raises [e] on the settings of the record with
    provider [p], then [compare_results] on the whole list raises [e];
    no mapping is returned, the object is the one the failed [execute]
    left, and the log ends with that of the failed [execute]: nothing is
    executed for the records after it. *)
Theorem compare_results_propagates (before after : list (gmap string pyval))
  (d : gmap string pyval) (p repetitions : pyval) (self self1 self2 : QCircuit)
  (out1 : gmap pyval (option counts)) (log1 log2 : list event) (e : exn) :
compare_results (Some before) repetitions self = (Return out1, self1, log1) ->
d !! "provider" = Some p ->
execute_with p d self1 = (Raise e, self2, log2) ->
compare_results (Some (before ++ d :: after)) repetitions self
= (Raise e, self2, log1 ++ log2).
Proof.
intros Hb Hd He. apply (compare_results_stops _ _ _ _ _ _ _ _ _ _ _ Hb).
rewrite (compare_config_body_provider _ _ _ _ Hd). unfold bind. by rewrite He.
Qed.

(** Entries of the output are only written under providers of records. *)
Lemma for_each_with_entries (ds : list (gmap string pyval))
  (acc out : gmap pyval (option counts)) (self self' : QCircuit)
  (log : list event) (p : pyval) :
for_each_with ds compare_config_body acc self = (Return out, self', log) ->
(is_Some (out !! p)
 <-> is_Some (acc !! p) \/ exists d, d ∈ ds /\ d !! "provider" = Some p).
Proof.
revert acc self log. induction ds as [|d ds IH]; intros acc self log; simpl.
- intros [= <- _ _]. split; [by left|].
  intros [? | (d & Hd & _)]; [done|]. by apply elem_of_nil in Hd.
- intros Hrun. apply bind_returns in Hrun as (acc1 & self1 & l1 & l2 & Hd & Hrest & _).
  apply IH in Hrest. rewrite Hrest. clear Hrest IH.
  destruct (d !! "provider") as [q|] eqn:Hq.
  + rewrite (compare_config_body_provider _ _ _ _ Hq) in Hd.
    apply bind_returns in Hd as (r & ? & ? & ? & _ & [= <- _ _] & _).
    rewrite lookup_insert_is_Some. split.
    * intros [[-> | [_ ?]] | (d' & Hin & Hp)].
      -- right. exists d. split; [by left|done].
      -- by left.
      -- right. exists d'. split; [by right|done].
    * intros [? | (d' & Hin & Hp)].
      -- destruct (decide (q = p)); [by left; left | by left; right].
      -- apply elem_of_cons in Hin as [-> | Hin].
         ++ left. left. congruence.
         ++ right. by exists d'.
  + by rewrite (compare_config_body_anonymous _ _ _ Hq) in Hd.
Qed.

(** Records for other providers leave the entry of [p] alone. *)
Lemma for_each_with_keeps (ds : list (gmap string pyval))
  (acc out : gmap pyval (option counts)) (self self' : QCircuit)
  (log : list event) (p : pyval) :
Forall (fun d => d !! "provider" <> Some p) ds ->
for_each_with ds compare_config_body acc self = (Return out, self', log) ->
out !! p = acc !! p.
Proof.
intros Hds. revert acc self log.
induction Hds as [|d ds Hd _ IH]; intros acc self log; simpl.
- by intros [= <- _ _].
- intros Hrun.
  apply bind_returns in Hrun as (acc1 & self1 & l1 & l2 & Hb & Hrest & _).
  apply IH in Hrest. rewrite Hrest. clear Hrest IH.
  destruct (d !! "provider") as [q|] eqn:Hq.
  + rewrite (compare_config_body_provider _ _ _ _ Hq) in Hb.
    apply bind_returns in Hb as (r & ? & ? & ? & _ & [= <- _ _] & _).
    apply lookup_insert_ne. congruence.
  + by rewrite (compare_config_body_anonymous _ _ _ Hq) in Hb.
Qed.

(** C8. For an explicit list of configuration records, every recognized
    key other than the provider is defaulted when absent, and the
    provider is required.  (1) A record without a provider makes
    [compare_results] raise [KeyError] when the loop reaches it, with
    nothing executed for it.  (2) When [compare_results] returns a
    mapping, the entry of provider [p] is the result of [execute_with] on
    the last record with provider [p], run on the object as the records
    before it left it.  (3) The mapping has an entry for [p] exactly when
    some record has provider [p]. *)
Theorem compare_results_explicit :
(forall (before after : list (gmap string pyval)) (d : gmap string pyval)
        (repetitions : pyval) (self self1 : QCircuit)
        (out1 : gmap pyval (option counts)) (log1 : list event),
   compare_results (Some before) repetitions self = (Return out1, self1, log1) ->
   d !! "provider" = None ->
   compare_results (Some (before ++ d :: after)) repetitions self
   = (Raise (KeyError "provider"), self1, log1))
/\ (forall (before after : list (gmap string pyval)) (d : gmap string pyval)
          (p repetitions : pyval) (self self' : QCircuit)
          (out : gmap pyval (option counts)) (log : list event),
      d !! "provider" = Some p ->
      Forall (fun d' => d' !! "provider" <> Some p) after ->
      compare_results (Some (before ++ d :: after)) repetitions self
      = (Return out, self', log) ->
      exists out1 self1 log1 results self2 log2,
        compare_results (Some before) repetitions self = (Return out1, self1, log1)
        /\ execute_with p d self1 = (Return results, self2, log2)
        /\ out !! p = Some results)
/\ (forall (ds : list (gmap string pyval)) (p repetitions : pyval)
          (self self' : QCircuit) (out : gmap pyval (option counts))
          (log : list event),
      compare_results (Some ds) repetitions self = (Return out, self', log) ->
      (is_Some (out !! p) <-> exists d, d ∈ ds /\ d !! "provider" = Some p)).
Proof.
split; [|split].
- intros before after d repetitions self self1 out1 log1 Hb Hd.
  rewrite (compare_results_stops _ after _ _ _ _ _ _ _ _ _ Hb
             (compare_config_body_anonymous d out1 self1 Hd)).
  by rewrite app_nil_r.
- intros before after d p repetitions self self' out log Hd Hafter.
  unfold compare_results. rewrite for_each_with_app. intros Hrun.
  apply bind_returns in Hrun as (out1 & self1 & log1 & l & Hb & Hrest & _).
  simpl in Hrest.
  apply bind_returns in Hrest as (out2 & self2 & log2 & l' & Hbody & Hrest & _).
  rewrite (compare_config_body_provider _ _ _ _ Hd) in Hbody.
  apply bind_returns in Hbody as (r & s & l2 & ? & He & [= <- <- _] & _).
  exists out1, self1, log1, r, s, l2. split; [done|]. split; [done|].
  rewrite (for_each_with_keeps _ _ _ _ _ _ _ Hafter Hrest).
  apply lookup_insert_eq.
- intros ds p repetitions self self' out log Hrun.
  unfold compare_results in Hrun.
  rewrite (for_each_with_entries _ _ _ _ _ _ p Hrun), lookup_empty.
  split; [intros [[? ?] | ?]; done | by right].
Qed.

End CompareProperties.

(** * The RCCX matrix *)

(** C2. The gate acts on three qubits and its matrix is square of
    dimension [2 ^ 3 = 8], but the matrix is not unitary: the product of
    its conjugate transpose with itself has 2 in place (7, 7) and [-1j]
    in place (3, 6), where the identity has 1 and 0. *)
Theorem rccx_unitary_is_not_unitary :
RCCXGate._num_qubits_ = 3%nat
/\ RCCXGate.square (2 ^ RCCXGate._num_qubits_)%nat RCCXGate._unitary_
/\ RCCXGate.entry
     (RCCXGate.matmul 8 (RCCXGate.dagger 8 RCCXGate._unitary_) RCCXGate._unitary_)
     7 7 = RCCXGate.Complex 2 0
/\ RCCXGate.entry
     (RCCXGate.matmul 8 (RCCXGate.dagger 8 RCCXGate._unitary_) RCCXGate._unitary_)
     3 6 = RCCXGate.Complex 0 (-1)
/\ ~ RCCXGate.unitary 8 RCCXGate._unitary_.
Proof.
split; [reflexivity|].
split; [split; [reflexivity | repeat constructor]|].
split; [reflexivity|].
split; [reflexivity|].
intros [H _]. vm_compute in H. discriminate H.
Qed.

(** * The facade on the sample collaborators *)

(** Translators on the sample always yield a circuit for the IBM label. *)
Lemma sample_ibm_translates :
translates (E:=Sample.collaborators) (PyStr "IBM").
Proof. intros self. eexists. reflexivity. Defined.

(** C3, as stated, fails on the sample: two draws for the same provider,
    a value [convert_circuit] has no translator for, enter
    [convert_circuit] twice; the first leaves no cached circuit behind. *)
Lemma repeated_draws_translate_again :
translations
  (session (E:=Sample.collaborators)
     [Draw (PyStr "Rigetti"); Draw (PyStr "Rigetti")]
     Sample.two_qubits).2
= 2%nat.
Proof. vm_compute. reflexivity. Qed.

(** A client that draws, appends, executes and draws again for the same
    provider: one translation. *)
Lemma check_and_convert_memoizes_witness :
translations
  (session (E:=Sample.collaborators)
     [Build (call_h_gate 0);
      Draw (PyStr "IBM");
      Build (call_x_gate 1);
      Execute (PyStr "IBM") (PyStr "default") (PyInt 10) PyNone PyNone
        (PyStr "simulator") PyNone (PyInt 100) (PyInt 10) PyNone;
      Draw (PyStr "IBM")]
     Sample.two_qubits).2
= 1%nat.
Proof.
apply (proj1 (proj2 (proj2 (proj2
         (check_and_convert_memoizes (E:=Sample.collaborators) (PyStr "IBM")))))).
- repeat (apply List.Forall_cons; [first [left; reflexivity | right; reflexivity]|]).
  apply List.Forall_nil.
- reflexivity.
- apply sample_ibm_translates.
Defined.

(** C9 on the sample: the Microsoft label. *)
Lemma execute_unrecognised_returns_none_witness :
(PyStr "Microsoft" ∉ [PyStr "IBM"; PyStr "Google"; PyStr "Amazon"; PyStr "IonQ"])
/\ execute (E:=Sample.collaborators) (PyStr "Microsoft") (PyStr "default")
     (PyInt 10) PyNone PyNone (PyStr "simulator") PyNone (PyInt 100) (PyInt 10)
     PyNone Sample.two_qubits
   = (Return None,
      ({| qubits := 2;
         operations := [];
         converted_q_circuit := Sample.cached "qsharp" [] 2;
         provider := PyStr "Microsoft" |} : @QCircuit Sample.collaborators),
      [Converted (PyStr "Microsoft")]).
Proof.
assert (Hp : PyStr "Microsoft"
             ∉ [PyStr "IBM"; PyStr "Google"; PyStr "Amazon"; PyStr "IonQ"]).
{ intros H. repeat (apply elem_of_cons in H as [H | H]; [discriminate H|]).
  by apply elem_of_nil in H. }
split; [exact Hp|].
apply (execute_unrecognised_returns_none (E:=Sample.collaborators)
         (PyStr "Microsoft")); [exact Hp | reflexivity].
Defined.

(** C5 on the sample: the IonQ label without API details. *)
Lemma execute_ionq_requires_api_witness :
(PyStr "IonQ" ∉ [PyStr "IBM"; PyStr "Google"; PyStr "Amazon"])
/\ execute (E:=Sample.collaborators) (PyStr "IonQ") (PyStr "default")
     (PyInt 10) PyNone PyNone (PyStr "simulator") PyNone (PyInt 100) (PyInt 10)
     PyNone Sample.two_qubits
   = (Raise (APIDetailsNotFoundError "IonQ API details not provided"),
      ({| qubits := 2;
         operations := [];
         converted_q_circuit := Sample.cached "cirq" [] 2;
         provider := PyStr "IonQ" |} : @QCircuit Sample.collaborators),
      [Converted (PyStr "IonQ")]).
Proof.
assert (Hp : PyStr "IonQ" ∉ [PyStr "IBM"; PyStr "Google"; PyStr "Amazon"]).
{ intros H. repeat (apply elem_of_cons in H as [H | H]; [discriminate H|]).
  by apply elem_of_nil in H. }
split; [exact Hp|].
apply (execute_ionq_requires_api (E:=Sample.collaborators)); 
  [exact Hp | reflexivity | reflexivity].
Defined.

(** C4, as stated, fails on the sample: IonQ without API details listed
    before IBM.  [compare_results] raises; no mapping comes back, and the
    log shows the translation for IonQ and no execution at all, so the
    IBM record was never run. *)
Lemma compare_results_aborts_on_failure :
compare_results (E:=Sample.collaborators)
  (Some [Sample.ionq_without_api; Sample.ibm]) (PyInt 10) Sample.two_qubits
= (Raise (APIDetailsNotFoundError "IonQ API details not provided"),
   ({| qubits := 2;
       operations := [];
       converted_q_circuit := Sample.cached "cirq" [] 2;
       provider := PyStr "IonQ" |} : @QCircuit Sample.collaborators),
   [Converted (PyStr "IonQ")]).
Proof. vm_compute. reflexivity. Qed.

(** C4 as amended, on the sample: IBM runs, IonQ without API details
    raises, Google is never reached. *)
Lemma compare_results_propagates_witness :
compare_results (E:=Sample.collaborators)
  (Some ([Sample.ibm] ++ Sample.ionq_without_api :: [Sample.google]))
  (PyInt 10) Sample.two_qubits
= (Raise (APIDetailsNotFoundError "IonQ API details not provided"),
   ({| qubits := 2;
       operations := [];
       converted_q_circuit := Sample.cached "cirq" [] 2;
       provider := PyStr "IonQ" |} : @QCircuit Sample.collaborators),
   [Converted (PyStr "IBM"); Executed Qiskit] ++ [Converted (PyStr "IonQ")]).
Proof.
apply (compare_results_propagates (E:=Sample.collaborators)
         [Sample.ibm] [Sample.google] Sample.ionq_without_api (PyStr "IonQ")
         (PyInt 10) Sample.two_qubits
         ({| qubits := 2;
             operations := [];
             converted_q_circuit := Sample.cached "qiskit" [] 2;
             provider := PyStr "IBM" |} : @QCircuit Sample.collaborators)
         _
         {[ PyStr "IBM" := Some [("0"%string, PyInt 1000)] ]}).
- vm_compute. reflexivity.
- vm_compute. reflexivity.
- vm_compute. reflexivity.
Defined.

(** C8, as stated, fails on the sample: a record that names no provider
    is not run under a default provider; [compare_results] raises
    [KeyError] and returns no mapping. *)
Lemma compare_results_requires_provider :
compare_results (E:=Sample.collaborators)
  (Some [Sample.anonymous]) (PyInt 10) Sample.two_qubits
= (Raise (KeyError "provider"), Sample.two_qubits, []).
Proof. vm_compute. reflexivity. Qed.

(** C8 as amended, on the sample. *)
Lemma compare_results_explicit_witness :
compare_results (E:=Sample.collaborators)
  (Some ([Sample.ibm] ++ Sample.anonymous :: [Sample.google]))
  (PyInt 10) Sample.two_qubits
= (Raise (KeyError "provider"),
   ({| qubits := 2;
       operations := [];
       converted_q_circuit := Sample.cached "qiskit" [] 2;
       provider := PyStr "IBM" |} : @QCircuit Sample.collaborators),
   [Converted (PyStr "IBM"); Executed Qiskit])
/\ (exists out1 self1 log1 results self2 log2,
      compare_results (E:=Sample.collaborators)
        (Some [Sample.ibm]) (PyInt 10) Sample.two_qubits
      = (Return out1, self1, log1)
      /\ execute_with (E:=Sample.collaborators) (PyStr "Google") Sample.google self1
         = (Return results, self2, log2)
      /\ ({[ PyStr "IBM" := Some [("0"%string, PyInt 1000)];
             PyStr "Google" := Some [("0"%string, PyInt 50)] ]}
          : gmap pyval (option (@counts Sample.collaborators)))
         !! PyStr "Google" = Some results)
/\ (is_Some
      (({[ PyStr "IBM" := Some [("0"%string, PyInt 1000)];
           PyStr "Google" := Some [("0"%string, PyInt 50)] ]}
        : gmap pyval (option (@counts Sample.collaborators)))
       !! PyStr "Amazon")
    <-> exists d, d ∈ [Sample.ibm; Sample.google]
                  /\ d !! "provider" = Some (PyStr "Amazon")).
Proof.
destruct (compare_results_explicit (E:=Sample.collaborators)) as (H1 & H2 & H3).
split; [|split].
- apply (H1 [Sample.ibm] [Sample.google] Sample.anonymous (PyInt 10)
           Sample.two_qubits _ {[ PyStr "IBM" := Some [("0"%string, PyInt 1000)] ]}).
  + vm_compute. reflexivity.
  + vm_compute. reflexivity.
- apply (H2 [Sample.ibm] [] Sample.google (PyStr "Google") (PyInt 10)
           Sample.two_qubits
           ({| qubits := 2;
               operations := [];
               converted_q_circuit := Sample.cached "cirq" [] 2;
               provider := PyStr "Google" |} : @QCircuit Sample.collaborators)
           _
           [Converted (PyStr "IBM"); Executed Qiskit;
            Converted (PyStr "Google"); Executed Cirq]).
  + vm_compute. reflexivity.
  + apply List.Forall_nil.
  + vm_compute. reflexivity.
- apply (H3 [Sample.ibm; Sample.google] (PyStr "Amazon") (PyInt 10)
           Sample.two_qubits
           ({| qubits := 2;
               operations := [];
               converted_q_circuit := Sample.cached "cirq" [] 2;
               provider := PyStr "Google" |} : @QCircuit Sample.collaborators)
           _
           [Converted (PyStr "IBM"); Executed Qiskit;
            Converted (PyStr "Google"); Executed Cirq]).
  vm_compute. reflexivity.
Defined.

(** * Further properties of the builder surface *)

Section BuilderCoverage.
Context `{E : Collaborators}.

Lemma check_qubit_boundary_decides (qubit : Z) (self : QCircuit) :
(qubit < qubits self /\ check_qubit_boundary qubit self = (Return tt, self, []))
\/ (qubits self <= qubit
    /\ check_qubit_boundary qubit self
       = (Raise (CircuitError QUBIT_OUT_OF_BOUND), self, [])).
Proof.
destruct (Z_lt_le_dec qubit (qubits self)).
- left. split; [done|]. apply check_qubit_boundary_accepts. lia.
- right. split; [done|]. apply check_qubit_boundary_rejects. lia.
Qed.

Lemma for_each_check_decides (control_qubits : list Z) (self : QCircuit) :
(Forall (fun q => q < qubits self) control_qubits
 /\ for_each control_qubits (fun qubit => check_qubit_boundary qubit) self
    = (Return tt, self, []))
\/ (~ Forall (fun q => q < qubits self) control_qubits
    /\ for_each control_qubits (fun qubit => check_qubit_boundary qubit) self
       = (Raise (CircuitError QUBIT_OUT_OF_BOUND), self, [])).
Proof.
induction control_qubits as [|q rest IH]; simpl.
- left. by split.
- unfold bind.
  destruct (check_qubit_boundary_decides q self) as [[Hq ->] | [Hq ->]].
  + destruct IH as [[Hrest ->] | [Hrest ->]].
    * left. split; [by constructor | done].
    * right. split; [|done]. intros Hall. apply Hrest. by inversion Hall.
  + right. split; [|done]. intros Hall. inversion Hall; subst. lia.
Qed.

Ltac decide_checks :=
  unfold bind;
  repeat match goal with
  | |- context [check_qubit_boundary ?q ?s] =>
      destruct (check_qubit_boundary_decides q s) as [[? ->] | [? ->]]
  | |- context [for_each ?cs _ ?s] =>
      destruct (for_each_check_decides cs s) as [[? ->] | [? ->]]
  end.

Ltac unfold_builders :=
  unfold x_gate, y_gate, z_gate, h_gate, cx_gate, cz_gate, ccx_gate,
    ry_gate, ryy_gate, rzz_gate, rzx_gate, rz_gate, s_gate, sdg_gate,
    swap_gate, iswap_gate, sx_gate, sxd_gate, t_gate, td_gate, u_gate,
    u1_gate, u2_gate, u3_gate, cy_gate, i_gate, rccx_gate, rc3x_gate,
    rxx_gate, rx_gate, r_gate, p_gate, c3x_gate, c3sx_gate, c4x_gate,
    dcx_gate, ch_gate, csx_gate, cswap_gate, cphase_gate, crx_gate,
    cry_gate, crz_gate, cu_gate, cu1_gate, cu3_gate, mcx_gate,
    mcxgc_gate, mcxvchain_gate, mcxrec_gate, mcp_gate, mct_gate,
    measure, measure_all.

(** A builder call goes through exactly when every index it checks is
    below the qubit count; otherwise it raises [CircuitError] with the
    out-of-bound message.  Nothing else decides: negative indices pass,
    and so does any index the call does not check. *)
Theorem builder_call_accepts_iff (g : builder_call) (self : QCircuit) :
(Forall (fun q => q < qubits self) (checked_qubits g)
 <-> exists r self', invoke g self = (Return r, self', []))
/\ (~ Forall (fun q => q < qubits self) (checked_qubits g)
    <-> invoke g self = (Raise (CircuitError QUBIT_OUT_OF_BOUND), self, [])).
Proof.
destruct g; simpl; unfold_builders.
all: decide_checks; unfold append, ret; simpl.
all: rewrite ?Forall_cons, ?Forall_nil.
all: split; split;
  first [ intros (? & ? & [=]) | intros [=] | idtac ];
  intros; try tauto; try lia; eauto.
Qed.

Lemma ints_Seq_app (xs ys : list pydata) :
ints (Seq (xs ++ ys)) = ints (Seq xs) ++ ints (Seq ys).
Proof.
induction xs as [|x xs IH]; [done|].
simpl in *. by rewrite IH, app_assoc.
Qed.

Lemma ints_Seq_Int (qs : list Z) : ints (Seq (map Int qs)) = qs.
Proof.
induction qs as [|q qs IH]; [done|].
simpl in *. by rewrite IH.
Qed.

(** The indices of an appended operation, for the calls that check all
    they record. *)
Lemma invoke_records_checked (g : builder_call) (self self' : QCircuit)
  (r : reference) (log : list event) :
records_unchecked g = false ->
invoke g self = (Return r, self', log) ->
exists op,
  operations self' = operations self ++ [op]
  /\ Forall (fun q => q < qubits self) (op_qubits op).
Proof.
destruct g; simpl; try discriminate; intros _; unfold_builders.
all: decide_checks; try discriminate.
all: unfold append, ret; simpl; intros [= _ <- _]; simpl.
all: eexists; split; [reflexivity|].
all: cbn [op_qubits];
  rewrite ?ints_Seq_app, ?ints_Seq_Int, ?app_nil_r; simpl;
  rewrite ?Forall_app, ?Forall_cons, ?Forall_nil; try tauto.
Qed.

(** Apart from the four calls that record an index they have not
    checked, a call that goes through records checked indices only:
    every qubit index of the operation it appends is below the qubit
    count. *)
Theorem builder_call_records_checked (g : builder_call) (self self' : QCircuit)
  (r : reference) (log : list event) :
records_unchecked g = false ->
invoke g self = (Return r, self', log) ->
exists op,
  operations self' = operations self ++ [op]
  /\ Forall (fun q => q < qubits self) (op_qubits op).
Proof. apply invoke_records_checked. Qed.

End BuilderCoverage.

(** * Further properties of the facade under a client *)

Section SessionProperties.
Context `{E : Collaborators}.

(** A draw or an execute leaves the log of operations and the qubit
    count alone. *)
Lemma serve_asks_operations (r : request) (p : pyval) (self : QCircuit) :
requested r = Some p ->
operations (serve r self).1 = operations self
/\ qubits (serve r self).1 = qubits self
/\ provider (serve r self).1 = p.
Proof.
intros Hr.
destruct (check_and_convert_outcome p self)
  as ([[] | e] & self1 & log1 & Hc & Hp & Hops & Hq & _).
- destruct (serve_asks r p self self1 log1 Hr Hc) as (log2 & -> & _). done.
- by rewrite (serve_asks_raised r p e self self1 log1 Hr Hc).
Qed.

(** The log of operations only grows at its end, whatever the client
    does: builder calls that go through append, builder calls that raise,
    draws and executes (failed or not) leave it alone; the qubit count
    never changes. *)
Theorem session_appends_only (rs : list request) (self : QCircuit) :
operations self `prefix_of` operations (session rs self).1
/\ qubits (session rs self).1 = qubits self.
Proof.
revert self. induction rs as [|r rs IH]; intros self; simpl.
- split; reflexivity.
- assert (Hstep : operations self `prefix_of` operations (serve r self).1
                  /\ qubits (serve r self).1 = qubits self).
  { destruct (requested r) as [p|] eqn:Hr.
    - destruct (serve_asks_operations r p self Hr) as (-> & -> & _).
      split; reflexivity.
    - destruct r as [g | |]; try discriminate. simpl.
      destruct (invoke_atomic g self)
        as [[msg ->] | (ret0 & op & self' & -> & Hops & _ & _ & Hq)]; simpl.
      + split; reflexivity.
      + rewrite Hops. split; [by apply prefix_app_r | done]. }
  destruct (serve r self) as [self1 log1]; simpl in *.
  specialize (IH self1). destruct (session rs self1) as [self2 log2]; simpl in *.
  destruct Hstep as [Hpre Hq], IH as [Hpre' Hq'].
  split; [by etrans | congruence].
Qed.

(** The bound on recorded indices is an invariant of the object as long
    as the client stays away from the four calls that record unchecked
    indices. *)
Theorem session_bounded (rs : list request) (self : QCircuit) :
Forall (fun r => match r with
                 | Build g => records_unchecked g = false
                 | _ => True
                 end) rs ->
bounded self ->
bounded (session rs self).1.
Proof.
intros Hrs. revert self. induction Hrs as [|r rs Hr _ IH]; intros self Hb; [done|].
simpl.
assert (Hstep : bounded (serve r self).1).
{ destruct (requested r) as [p|] eqn:Hq.
  - destruct (serve_asks_operations r p self Hq) as (Hops & Hn & _).
    unfold bounded. by rewrite Hops, Hn.
  - destruct r as [g | |]; try discriminate. simpl.
    destruct (invoke g self) as [[[ret0 | e] self'] log] eqn:Hinv.
    + destruct (invoke_records_checked g self self' ret0 log Hr Hinv)
        as (op & Hops & Hop).
      destruct (invoke_atomic g self)
        as [[msg Heq] | (? & ? & ? & Heq & _ & _ & _ & Hn)];
        rewrite Hinv in Heq; [discriminate|]. injection Heq as ? ? ?; subst.
      unfold bounded. simpl. rewrite Hops, Hn.
      apply Forall_app. split; [done|]. by constructor.
    + destruct (invoke_atomic g self)
        as [[msg Heq] | (? & ? & ? & Heq & _)];
        rewrite Hinv in Heq; [|discriminate]. by injection Heq as ? ? ?; subst. }
destruct (serve r self) as [self1 log1]; simpl in *.
specialize (IH self1 Hstep). by destruct (session rs self1).
Qed.

(** What a request adds to the log besides what [check_and_convert]
    logged: no translation, and at most one execution, none for a draw. *)
Lemma serve_asks_effects (r : request) (p : pyval) (self self1 : QCircuit)
  (log1 : list event) :
requested r = Some p ->
check_and_convert p self = (Return tt, self1, log1) ->
exists log2,
  serve r self = (self1, log1 ++ log2)
  /\ translations log2 = 0%nat
  /\ (executions log2 <= 1)%nat
  /\ (executions log2 = 0%nat \/ exists q a b c d e f g h i, r = Execute q a b c d e f g h i).
Proof.
intros Hr Hc. destruct r as [g | q | q sim reps api dev tgt bkt pt pi dir];
  simpl in Hr; [discriminate | |]; injection Hr as ->; simpl.
- unfold draw_circuit, bind at 1. rewrite Hc.
  unfold bind, get, emit, raise, ret.
  repeat case_decide; try (destruct (converted_q_circuit self1)); simpl;
    eexists; (split; [reflexivity|]);
    unfold translations, executions; simpl; auto.
- unfold execute, bind at 1. rewrite Hc.
  unfold bind, get, get_operations, emit, call, raise, ret, bind.
  repeat case_decide;
    simpl;
    try (destruct (on_qiskit _ _ _ _ _));
    try (destruct (on_cirq _ _ _ _ _));
    try (destruct (on_braket _ _ _ _ _ _ _ _));
    try (destruct api; simpl; try (destruct (on_ionq _ _ _ _ _)));
    simpl; eexists; (split; [reflexivity|]);
    unfold translations, executions; simpl;
    (split; [reflexivity|]); (split; [lia|]); right; by repeat eexists.
Qed.

Lemma serve_effects (r : request) (self : QCircuit) :
(translations (serve r self).2 <= if asks r then 1 else 0)%nat
/\ (executions (serve r self).2
    <= match r with Execute _ _ _ _ _ _ _ _ _ _ => 1 | _ => 0 end)%nat.
Proof.
destruct (requested r) as [p|] eqn:Hr.
- destruct (check_and_convert_outcome p self)
    as (o & self1 & log1 & Hc & _ & _ & _ & Hex & Hst & Hnst).
  assert (Hlog : (translations log1 <= 1)%nat).
  { destruct (stale_dec p self) as [Hs | Hs].
    - rewrite (Hst Hs). unfold translations. simpl. lia.
    - destruct (Hnst Hs) as (_ & _ & ->). unfold translations. simpl. lia. }
  unfold asks. rewrite Hr.
  destruct o as [[] | e].
  + destruct (serve_asks_effects r p self self1 log1 Hr Hc)
      as (log2 & -> & Ht & Hle & Hcase).
    cbn [snd]. rewrite translations_app, executions_app, Ht, Hex.
    split; [lia|].
    destruct Hcase as [-> | (? & ? & ? & ? & ? & ? & ? & ? & ? & ? & ->)]; lia.
  + rewrite (serve_asks_raised r p e self self1 log1 Hr Hc).
    cbn [snd]. rewrite Hex. split; [lia|]. destruct r; lia.
- destruct r as [g | |]; try discriminate.
  destruct (serve_build g self) as (self' & -> & _).
  unfold translations, executions. simpl. lia.
Qed.

(** A client never causes more translations than it issues draws and
    executes, nor more executor calls than it issues executes: builder
    calls do neither, a draw never executes. *)
Theorem session_effects_bounded (rs : list request) (self : QCircuit) :
(translations (session rs self).2 <= length (List.filter asks rs))%nat
/\ (executions (session rs self).2
    <= length (List.filter
                 (fun r => match r with
                           | Execute _ _ _ _ _ _ _ _ _ _ => true
                           | _ => false
                           end) rs))%nat.
Proof.
revert self. induction rs as [|r rs IH]; intros self; simpl;
  [unfold translations, executions; simpl; split; lia|].
pose proof (serve_effects r self) as [Ht He].
destruct (serve r self) as [self1 log1]; simpl in *.
specialize (IH self1). destruct (session rs self1) as [self2 log2]; simpl in *.
rewrite translations_app, executions_app.
destruct IH as [IHt IHe]. split.
- destruct (asks r); simpl; lia.
- destruct r; simpl; lia.
Qed.

(** Once the cache holds a translation for [p], it is never refreshed as
    long as the client asks for [p]: whatever is appended in between, the
    cached circuit stays the one translated before, so an executor is
    handed a circuit that lacks the operations appended since. *)
Theorem session_keeps_cache (p : pyval) (rs : list request) (self : QCircuit) :
Forall (fun r => requested r = None \/ requested r = Some p) rs ->
~ stale p self ->
converted_q_circuit (session rs self).1 = converted_q_circuit self
/\ provider (session rs self).1 = p.
Proof.
intros Hrs. revert self. induction Hrs as [|r rs Hr _ IH]; intros self Hs.
- simpl. split; [done|]. unfold stale in Hs.
  destruct (decide (provider self = p)); [done | tauto].
- simpl.
  assert (Hstep : converted_q_circuit (serve r self).1 = converted_q_circuit self
                  /\ ~ stale p (serve r self).1).
  { destruct (requested r) as [q|] eqn:Hq.
    - destruct Hr as [Hr | Hr]; [discriminate|]. injection Hr as ->.
      destruct (serve_asks r p self self [] Hq) as (log2 & -> & _);
        [by apply check_and_convert_cached | done].
    - destruct r as [g | |]; try discriminate.
      destruct (serve_build g self) as (self' & -> & Hc & Hp). simpl.
      split; [done|]. unfold stale in *. by rewrite Hc, Hp. }
  destruct (serve r self) as [self1 log1]; simpl in *.
  destruct Hstep as [Hc Hns]. specialize (IH self1 Hns).
  destruct (session rs self1) as [self2 log2]; simpl in *.
  destruct IH as [-> ->]. done.
Qed.

End SessionProperties.

(** * Further properties of translation and execution *)

Section DispatchProperties.
Context `{E : Collaborators}.

Ltac labels_apart H :=
  repeat (apply not_elem_of_cons in H; destruct H as [? H]).

Ltac branches := repeat (case_decide; try (exfalso; congruence)).

Ltac unfold_translation :=
  unfold translation, convert_circuit, bind, get, emit, call, ret; simpl.

(** A translation that raises leaves the object half switched: the
    provider is already [p], the cache still holds the circuit translated
    for the previous provider.  The request that asked for [p] ends with
    the translator's exception; the next request for [p] finds a cached
    circuit under provider [p], translates nothing, and goes on with the
    circuit of the previous provider. *)
Theorem failed_translation_keeps_old_cache (r r' : request) (p : pyval)
  (e : exn) (c : native) (self : QCircuit) :
requested r = Some p ->
requested r' = Some p ->
provider self <> p ->
converted_q_circuit self = Some c ->
translation p self = Raise e ->
serve r self = (retarget p self, [Converted p])
/\ translations (serve r' (retarget p self)).2 = 0%nat
/\ converted_q_circuit (serve r' (retarget p self)).1 = Some c
/\ provider (serve r' (retarget p self)).1 = p.
Proof.
intros Hr Hr' Hne Hc Ht.
assert (Hs : stale p self) by by right.
split.
- apply (serve_asks_raised r p e); [done|].
  by apply check_and_convert_stale_raises.
- assert (Hns : ~ stale p (retarget p self)).
  { intros [Hn | Hn]; simpl in Hn; [congruence | done]. }
  destruct (serve_asks r' p (retarget p self) _ _ Hr'
              (check_and_convert_cached p (retarget p self) Hns))
    as (log2 & -> & Hz).
  cbn [fst snd]. by repeat split.
Qed.

Lemma translation_unrecognised (p : pyval) (self : QCircuit) :
p ∉ [IBM_PROVIDER; GOOGLE_PROVIDER; IONQ_PROVIDER; MICROSOFT_PROVIDER;
     AMAZON_PROVIDER] ->
translation p self = Return None.
Proof.
intros Hp. labels_apart Hp. unfold_translation. branches. reflexivity.
Qed.

(** For a value that is none of the five labels nothing is ever cached:
    on an object without a cached circuit, every draw and every execute
    for it enters [convert_circuit] again, and the cache stays empty. *)
Theorem session_never_caches_unrecognised (p : pyval) (rs : list request)
  (self : QCircuit) :
p ∉ [IBM_PROVIDER; GOOGLE_PROVIDER; IONQ_PROVIDER; MICROSOFT_PROVIDER;
     AMAZON_PROVIDER] ->
Forall (fun r => requested r = None \/ requested r = Some p) rs ->
converted_q_circuit self = None ->
translations (session rs self).2 = length (List.filter asks rs)
/\ converted_q_circuit (session rs self).1 = None.
Proof.
intros Hp Hrs. revert self.
induction Hrs as [|r rs Hr _ IH]; intros self Hnone; [done|].
simpl.
assert (Hstep : translations (serve r self).2 = (if asks r then 1%nat else 0%nat)
                /\ converted_q_circuit (serve r self).1 = None).
{ destruct (requested r) as [q|] eqn:Hq.
  - destruct Hr as [Hr | Hr]; [discriminate|]. injection Hr as ->.
    assert (Hs : stale p self) by by left.
    destruct (serve_asks r p self _ _ Hq
                (check_and_convert_stale_returns p None self Hs
                   (translation_unrecognised p self Hp)))
      as (log2 & -> & Hz).
    cbn [fst snd]. rewrite translations_app, Hz. unfold asks. rewrite Hq.
    split; reflexivity.
  - destruct r as [g | |]; try discriminate.
    destruct (serve_build g self) as (self' & -> & Hc & _).
    split; [reflexivity|]. simpl. congruence. }
destruct (serve r self) as [self1 log1]; simpl in *.
destruct Hstep as [Ht Hc]. specialize (IH self1 Hc).
destruct (session rs self1) as [self2 log2]; simpl in *.
destruct IH as [IHt IHc]. rewrite translations_app, Ht, IHt.
split; [|done]. by destruct (asks r).
Qed.

(** Which executor [execute] reaches, with which arguments.  The IBM
    label reaches [on_qiskit] with simulator, repetitions, api and device;
    the Google label (when it is not the IBM label) reaches [on_cirq] with
    simulator, repetitions, api and the operations; the Amazon label (when
    it is neither) reaches [on_braket] with simulator, repetitions, device,
    bucket, directory and the two polling settings.  The outcome of
    [execute] is the outcome of the executor, an exception included; in
    either case the object stays as [check_and_convert] left it, with the
    provider switched and the translation cached. *)
Theorem execute_dispatch
  (simulator_name repetitions api device default_target
   bucket poll_timeout_seconds poll_interval_seconds directory : pyval)
  (self : QCircuit) :
GOOGLE_PROVIDER <> IBM_PROVIDER ->
AMAZON_PROVIDER ∉ [IBM_PROVIDER; GOOGLE_PROVIDER] ->
(forall self1 log1,
   check_and_convert IBM_PROVIDER self = (Return tt, self1, log1) ->
   execute IBM_PROVIDER simulator_name repetitions api device default_target
     bucket poll_timeout_seconds poll_interval_seconds directory self
   = (handed_back (on_qiskit (converted_q_circuit self1) simulator_name
                     repetitions api device),
      self1, log1 ++ [Executed Qiskit]))
/\ (forall self1 log1,
      check_and_convert GOOGLE_PROVIDER self = (Return tt, self1, log1) ->
      execute GOOGLE_PROVIDER simulator_name repetitions api device default_target
        bucket poll_timeout_seconds poll_interval_seconds directory self
      = (handed_back (on_cirq (converted_q_circuit self1) simulator_name
                        repetitions api (operations self1)),
         self1, log1 ++ [Executed Cirq]))
/\ (forall self1 log1,
      check_and_convert AMAZON_PROVIDER self = (Return tt, self1, log1) ->
      execute AMAZON_PROVIDER simulator_name repetitions api device default_target
        bucket poll_timeout_seconds poll_interval_seconds directory self
      = (handed_back (on_braket (converted_q_circuit self1) simulator_name
                        repetitions device bucket directory
                        poll_timeout_seconds poll_interval_seconds),
         self1, log1 ++ [Executed Braket])).
Proof.
intros Hg Ha. labels_apart Ha.
repeat split; intros self1 log1 Hc.
- destruct (check_and_convert_returned _ _ _ _ _ Hc) as (Hp & _).
  unfold execute, bind at 1. rewrite Hc.
  unfold bind, get, emit, call, ret. rewrite Hp. branches. simpl.
  by destruct (on_qiskit _ _ _ _ _).
- destruct (check_and_convert_returned _ _ _ _ _ Hc) as (Hp & _).
  unfold execute, bind at 1. rewrite Hc.
  unfold bind, get, get_operations, emit, call, ret, bind. rewrite Hp. branches.
  simpl. by destruct (on_cirq _ _ _ _ _).
- destruct (check_and_convert_returned _ _ _ _ _ Hc) as (Hp & _).
  unfold execute, bind at 1. rewrite Hc.
  unfold bind, get, emit, call, ret. rewrite Hp. branches. simpl.
  by destruct (on_braket _ _ _ _ _ _ _ _).
Qed.


End DispatchProperties.

(** * The composite helpers and the built-in comparison *)

Section HelperProperties.
Context `{E : Collaborators}.

(** [entangle] is not all-or-nothing: when the first index is in range
    and the second is not, the call raises [CircuitError] after the
    Hadamard operation on the first index has been appended, and the
    operation stays in the log. *)
Theorem entangle_partial_update (qubit1 qubit2 : Z) (self : QCircuit) :
qubit1 < qubits self ->
qubits self <= qubit2 ->
exists self',
  entangle qubit1 qubit2 self
  = (Raise (CircuitError QUBIT_OUT_OF_BOUND), self', [])
  /\ appended self self' [(Op OpType.h_gate, Seq [Int qubit1])].
Proof.
intros H1 H2.
unfold entangle, superposition, h_gate, cx_gate, bind.
rewrite (check_qubit_boundary_accepts qubit1 self) by lia.
unfold append at 1, ret at 1 2. simpl.
rewrite check_qubit_boundary_accepts by (simpl; lia).
rewrite check_qubit_boundary_rejects by (simpl; lia).
eexists. split; [reflexivity|]. by repeat split.
Qed.

(** [phase_kickback] is all-or-nothing, both of its gates checking the
    same index: it raises [CircuitError] and leaves the object unchanged
    when the index is out of range, and otherwise appends the X operation
    and then the Hadamard operation on that index, returning [None]. *)
Theorem phase_kickback_atomic (qubit : Z) (self : QCircuit) :
(qubits self <= qubit
 /\ phase_kickback qubit self
    = (Raise (CircuitError QUBIT_OUT_OF_BOUND), self, []))
\/ (qubit < qubits self
    /\ exists self',
         phase_kickback qubit self = (Return NoReturn, self', [])
         /\ operations self'
            = operations self ++ [[(Op OpType.x_gate, Seq [Int qubit])];
                                  [(Op OpType.h_gate, Seq [Int qubit])]]
         /\ converted_q_circuit self' = converted_q_circuit self
         /\ provider self' = provider self
         /\ qubits self' = qubits self).
Proof.
destruct (Z_lt_le_dec qubit (qubits self)) as [Hlt | Hge].
- right. split; [done|].
  unfold phase_kickback, x_gate, h_gate, bind.
  rewrite (check_qubit_boundary_accepts qubit self) by lia.
  unfold append at 1, ret at 1. simpl.
  rewrite check_qubit_boundary_accepts by (simpl; lia).
  unfold append, ret. simpl.
  eexists. split; [reflexivity|]. simpl. by rewrite <- app_assoc.
- left. split; [done|].
  unfold phase_kickback, x_gate, bind.
  by rewrite check_qubit_boundary_rejects by lia.
Qed.

(** An [execute] for the IBM, Google or Amazon label that returns has
    called exactly one executor and hands back counts, never [None]. *)
Lemma execute_returns_counts
  (p simulator_name repetitions api device default_target
   bucket poll_timeout_seconds poll_interval_seconds directory : pyval)
  (self self' : QCircuit) (r : option counts) (log : list event) :
p ∈ [IBM_PROVIDER; GOOGLE_PROVIDER; AMAZON_PROVIDER] ->
execute p simulator_name repetitions api device default_target bucket
  poll_timeout_seconds poll_interval_seconds directory self
= (Return r, self', log) ->
provider self' = p /\ is_Some r /\ executions log = 1%nat.
Proof.
intros Hp.
destruct (check_and_convert_outcome p self)
  as (o & self1 & log1 & Hc & Hprov & _ & _ & Hex & _).
unfold execute, bind at 1. rewrite Hc.
destruct o as [[] | e]; [|discriminate].
unfold bind, get, get_operations, emit, call, ret, bind. rewrite Hprov.
repeat case_decide; simpl;
  try (destruct (on_qiskit _ _ _ _ _));
  try (destruct (on_cirq _ _ _ _ _));
  try (destruct (on_braket _ _ _ _ _ _ _ _));
  simpl; try discriminate.
1-3: intros [= <- <- <-]; rewrite executions_app, Hex;
  unfold executions; simpl; by eauto.
all: exfalso; repeat (apply elem_of_cons in Hp as [Hp | Hp]; [congruence|]);
  by apply elem_of_nil in Hp.
Qed.

(** [compare_results()] without a list runs the Google, IBM and Amazon
    labels in this order, with the given repetitions and every other
    setting at its default: when it returns, [execute] has returned for
    Google on the object as given, then for IBM on the object Google left,
    then for Amazon on the object IBM left; the log is the three logs in
    this order and the mapping holds the three results under their
    labels.  Hence three executors have been called, the mapping has an
    entry exactly for these three labels and every entry holds counts,
    and the object is left with the Amazon label as its provider. *)
Theorem compare_results_default (repetitions : pyval) (self self' : QCircuit)
  (out : gmap pyval (option counts)) (log : list event) :
compare_results None repetitions self = (Return out, self', log) ->
(exists r1 r2 r3 self1 self2 log1 log2 log3,
   execute GOOGLE_PROVIDER DEFAULT_SIMULATOR repetitions default_api
     default_device default_default_target default_bucket
     default_poll_timeout_seconds default_poll_interval_seconds
     default_directory self
   = (Return r1, self1, log1)
   /\ execute IBM_PROVIDER DEFAULT_SIMULATOR repetitions default_api
        default_device default_default_target default_bucket
        default_poll_timeout_seconds default_poll_interval_seconds
        default_directory self1
      = (Return r2, self2, log2)
   /\ execute AMAZON_PROVIDER DEFAULT_SIMULATOR repetitions default_api
        default_device default_default_target default_bucket
        default_poll_timeout_seconds default_poll_interval_seconds
        default_directory self2
      = (Return r3, self', log3)
   /\ log = log1 ++ log2 ++ log3
   /\ out = <[AMAZON_PROVIDER := r3]>
              (<[IBM_PROVIDER := r2]> (<[GOOGLE_PROVIDER := r1]> ∅)))
/\ provider self' = AMAZON_PROVIDER
/\ executions log = 3%nat
/\ (forall p, is_Some (out !! p)
              <-> p ∈ [GOOGLE_PROVIDER; IBM_PROVIDER; AMAZON_PROVIDER])
/\ (forall p r, out !! p = Some r -> is_Some r).
Proof.
unfold compare_results. simpl. unfold compare_default_body. simpl.
intros Hrun.
apply bind_returns in Hrun as (o1 & s1 & l1 & l1' & H1 & Hrun & ->).
apply bind_returns in H1 as (r1 & ? & ? & ? & H1 & [= <- <- <-] & ->).
apply bind_returns in Hrun as (o2 & s2 & l2 & l2' & H2 & Hrun & ->).
apply bind_returns in H2 as (r2 & ? & ? & ? & H2 & [= <- <- <-] & ->).
apply bind_returns in Hrun as (o3 & s3 & l3 & l3' & H3 & [= <- <- <-] & ->).
apply bind_returns in H3 as (r3 & ? & ? & ? & H3 & [= <- <- <-] & ->).
split.
{ do 8 eexists. split; [exact H1|]. split; [exact H2|]. split; [exact H3|].
  split; [|reflexivity]. by rewrite !app_nil_r. }
apply execute_returns_counts in H1 as (_ & Hr1 & He1); [|set_solver].
apply execute_returns_counts in H2 as (_ & Hr2 & He2); [|set_solver].
apply execute_returns_counts in H3 as (Hp3 & Hr3 & He3); [|set_solver].
split; [done|]. split.
- rewrite !executions_app, He1, He2, He3. unfold executions. simpl. lia.
- split.
  + intros p. rewrite !lookup_insert_is_Some, lookup_empty.
    rewrite !elem_of_cons, elem_of_nil.
    split.
    * intros [-> | [_ [-> | [_ [-> | [_ [? Hn]]]]]]]; auto. discriminate Hn.
    * intros [-> | [-> | [-> | []]]].
      -- destruct (decide (AMAZON_PROVIDER = GOOGLE_PROVIDER)) as [->|]; [by left|].
         right. split; [done|].
         destruct (decide (IBM_PROVIDER = GOOGLE_PROVIDER)) as [->|]; [by left|].
         right. split; [done|]. by left.
      -- destruct (decide (AMAZON_PROVIDER = IBM_PROVIDER)) as [->|]; [by left|].
         right. split; [done|]. by left.
      -- by left.
  + intros p r.
    rewrite !lookup_insert_Some, lookup_empty.
    intros [[_ <-] | [_ [[_ <-] | [_ [[_ <-] | [_ ?]]]]]]; done.
Qed.

End HelperProperties.

(** * The further properties on the sample collaborators *)

Lemma builder_call_records_checked_witness :
exists op,
  operations
    ({| qubits := 2;
        operations := [[(Op OpType.cx_gate, Seq [Seq [Int 0]; Seq [Int 1]])]];
        converted_q_circuit := None;
        provider := PyStr "IBM" |} : @QCircuit Sample.collaborators)
  = operations Sample.two_qubits ++ [op]
  /\ Forall (fun q => q < qubits Sample.two_qubits) (op_qubits op).
Proof.
apply (builder_call_records_checked (E:=Sample.collaborators)
         (call_cx_gate 0 1) Sample.two_qubits _ Self []);
  reflexivity.
Defined.

Lemma session_bounded_witness :
bounded
  (session (E:=Sample.collaborators)
     [Build (call_h_gate 0); Build (call_ccx_gate 0 1 7); Draw (PyStr "IBM");
      Build (call_mcp_gate (PyInt 3) [0] 1)]
     Sample.two_qubits).1.
Proof.
apply (session_bounded (E:=Sample.collaborators)).
- repeat (apply List.Forall_cons; [first [reflexivity | exact I]|]).
  apply List.Forall_nil.
- apply List.Forall_nil.
Defined.

(** The staleness on the sample: the circuit was translated when its log
    was empty; after [x_gate(0)] and an execute for the same provider the
    cached circuit is still the translation of the empty log. *)
Lemma session_keeps_cache_witness :
converted_q_circuit
  (session (E:=Sample.collaborators)
     [Build (call_x_gate 0);
      Execute (PyStr "IBM") (PyStr "default") (PyInt 10) PyNone PyNone
        (PyStr "simulator") PyNone (PyInt 100) (PyInt 10) PyNone]
     ({| qubits := 2;
         operations := [];
         converted_q_circuit := Sample.cached "qiskit" [] 2;
         provider := PyStr "IBM" |} : @QCircuit Sample.collaborators)).1
= Sample.cached "qiskit" [] 2
/\ provider
     (session (E:=Sample.collaborators)
        [Build (call_x_gate 0);
         Execute (PyStr "IBM") (PyStr "default") (PyInt 10) PyNone PyNone
           (PyStr "simulator") PyNone (PyInt 100) (PyInt 10) PyNone]
        ({| qubits := 2;
            operations := [];
            converted_q_circuit := Sample.cached "qiskit" [] 2;
            provider := PyStr "IBM" |} : @QCircuit Sample.collaborators)).1
   = PyStr "IBM".
Proof.
apply (session_keeps_cache (E:=Sample.collaborators) (PyStr "IBM")).
- repeat (apply List.Forall_cons; [first [left; reflexivity | right; reflexivity]|]).
  apply List.Forall_nil.
- intros [H | H]; [discriminate H | apply H; reflexivity].
Defined.

(** On a sample whose Qiskit translator raises: the circuit is cached
    for Google, a draw for IBM fails in the translator, and the execute
    for IBM that follows translates nothing and keeps the Cirq circuit. *)
Lemma failed_translation_keeps_old_cache_witness :
serve (E:=Sample.with_qiskit Sample.unsupported) (Draw (PyStr "IBM"))
  ({| qubits := 2;
      operations := [];
      converted_q_circuit := Sample.cached "cirq" [] 2;
      provider := PyStr "Google" |}
   : @QCircuit (Sample.with_qiskit Sample.unsupported))
= (({| qubits := 2;
       operations := [];
       converted_q_circuit := Sample.cached "cirq" [] 2;
       provider := PyStr "IBM" |}
    : @QCircuit (Sample.with_qiskit Sample.unsupported)),
   [Converted (PyStr "IBM")])
/\ converted_q_circuit
     (serve (E:=Sample.with_qiskit Sample.unsupported)
        (Execute (PyStr "IBM") (PyStr "default") (PyInt 10) PyNone PyNone
           (PyStr "simulator") PyNone (PyInt 100) (PyInt 10) PyNone)
        ({| qubits := 2;
            operations := [];
            converted_q_circuit := Sample.cached "cirq" [] 2;
            provider := PyStr "IBM" |}
         : @QCircuit (Sample.with_qiskit Sample.unsupported))).1
   = Sample.cached "cirq" [] 2.
Proof.
destruct (failed_translation_keeps_old_cache
            (E:=Sample.with_qiskit Sample.unsupported)
            (Draw (PyStr "IBM"))
            (Execute (PyStr "IBM") (PyStr "default") (PyInt 10) PyNone PyNone
               (PyStr "simulator") PyNone (PyInt 100) (PyInt 10) PyNone)
            (PyStr "IBM") (BackendError (PyStr "unsupported"))
            (Sample.Native "cirq" [] 2)
            ({| qubits := 2;
                operations := [];
                converted_q_circuit := Sample.cached "cirq" [] 2;
                provider := PyStr "Google" |}
             : @QCircuit (Sample.with_qiskit Sample.unsupported)))
  as (H1 & _ & H3 & _).
- reflexivity.
- reflexivity.
- discriminate.
- reflexivity.
- reflexivity.
- split; [exact H1 | exact H3].
Defined.

Lemma session_never_caches_unrecognised_witness :
translations
  (session (E:=Sample.collaborators)
     [Draw (PyStr "Rigetti"); Build (call_h_gate 0); Draw (PyStr "Rigetti");
      Execute (PyStr "Rigetti") (PyStr "default") (PyInt 10) PyNone PyNone
        (PyStr "simulator") PyNone (PyInt 100) (PyInt 10) PyNone]
     Sample.two_qubits).2
= 3%nat.
Proof.
apply (session_never_caches_unrecognised (E:=Sample.collaborators)
         (PyStr "Rigetti")).
- intros H. repeat (apply elem_of_cons in H as [H | H]; [discriminate H|]).
  by apply elem_of_nil in H.
- repeat (apply List.Forall_cons; [first [left; reflexivity | right; reflexivity]|]).
  apply List.Forall_nil.
- reflexivity.
Defined.

Lemma execute_dispatch_witness :
execute (E:=Sample.collaborators) (PyStr "Amazon") (PyStr "offline") (PyInt 10)
  PyNone PyNone (PyStr "simulator") PyNone (PyInt 100) (PyInt 10) PyNone
  Sample.two_qubits
= (Raise (BackendError (PyStr "offline")),
   ({| qubits := 2;
       operations := [];
       converted_q_circuit := Sample.cached "braket" [] 2;
       provider := PyStr "Amazon" |} : @QCircuit Sample.collaborators),
   [Converted (PyStr "Amazon")] ++ [Executed Braket]).
Proof.
apply (execute_dispatch (E:=Sample.collaborators) (PyStr "offline") (PyInt 10)
         PyNone PyNone (PyStr "simulator") PyNone (PyInt 100) (PyInt 10) PyNone
         Sample.two_qubits).
- discriminate.
- intros H. repeat (apply elem_of_cons in H as [H | H]; [discriminate H|]).
  by apply elem_of_nil in H.
- reflexivity.
Defined.


Lemma entangle_partial_update_witness :
exists self',
  entangle (E:=Sample.collaborators) 0 5 Sample.two_qubits
  = (Raise (CircuitError "qubit out of bound"), self', [])
  /\ appended Sample.two_qubits self' [(Op OpType.h_gate, Seq [Int 0])].
Proof.
apply (entangle_partial_update (E:=Sample.collaborators) 0 5 Sample.two_qubits).
- reflexivity.
- discriminate.
Defined.

Lemma compare_results_default_witness :
provider
  ({| qubits := 2;
      operations := [];
      converted_q_circuit := Sample.cached "braket" [] 2;
      provider := PyStr "Amazon" |} : @QCircuit Sample.collaborators)
= PyStr "Amazon"
/\ executions
     [Converted (PyStr "Google"); Executed Cirq;
      Converted (PyStr "IBM"); Executed Qiskit;
      Converted (PyStr "Amazon"); @Executed Sample.collaborators Braket]
   = 3%nat.
Proof.
destruct (compare_results_default (E:=Sample.collaborators) (PyInt 10)
            Sample.two_qubits
            ({| qubits := 2;
                operations := [];
                converted_q_circuit := Sample.cached "braket" [] 2;
                provider := PyStr "Amazon" |} : @QCircuit Sample.collaborators)
            (<[PyStr "Amazon" := Some [("0"%string, PyInt 10)]]>
               (<[PyStr "IBM" := Some [("0"%string, PyInt 10)]]>
                  (<[PyStr "Google" := Some [("0"%string, PyInt 10)]]> ∅)))
            [Converted (PyStr "Google"); Executed Cirq;
             Converted (PyStr "IBM"); Executed Qiskit;
             Converted (PyStr "Amazon"); Executed Braket])
  as (_ & Hp & He & _).
- vm_compute. reflexivity.
- split; [exact Hp | exact He].
Defined.
